(** * Semgrep HTML report generator: model of [generate_html_report.py]

    A shallow embedding of the class [SemgrepReportGenerator]: the values
    that [json.load] produces, the exceptions the built-in operations raise
    on them, and the methods [_load_template], [parse_semgrep_output],
    [extract_findings], [_extract_code_snippet], [generate_report_data] and
    [generate_html], followed by the properties of the specification.

    Scope of the model.  Strings are sequences of one-byte characters and the
    case maps act on the ASCII letters, so that they are [str.upper] and
    [str.lower] on ASCII text.  Of the text printed on standard output, the
    diagnostics of the two handlers that turn an exception into a value, in
    [parse_semgrep_output] and [generate_html], are modelled, since printing
    them can raise; the other prints are not recorded.  Interpreter exits and
    interrupts (classes below [BaseException] that are not below [Exception])
    are not part of the exception type. *)

From Stdlib Require Import Ascii String ZArith.
From Stdlib Require Import Floats.SpecFloat.
From stdpp Require Import base option list strings gmap fin_maps pretty.

Local Open Scope string_scope.

#[local] Set Warnings "-register-all".

(** ** Python values *)

(** What [json.load] returns: [None], [bool], [int], [float], [str], [list]
    and [dict] with string keys.  A [float] is the IEEE 754 datum it denotes.
    A [dict] is kept as its items in insertion order, which is also the order
    in which iterating it yields the keys. *)
Inductive json : Type :=
  | JNull
  | JBool (b : bool)
  | JInt (n : Z)
  | JFloat (f : spec_float)
  | JStr (s : string)
  | JArr (xs : list json)
  | JObj (kvs : list (string * json)).

(** ** Exceptions *)

Inductive exception : Type :=
  | FileNotFoundError
  | PermissionError
  | IsADirectoryError
  | OSError
  | UnicodeDecodeError
  | UnicodeEncodeError
  | JSONDecodeError
  | ValueError
  | RecursionError
  | RuntimeError
  | TypeError
  | KeyError
  | IndexError
  | LookupError
  | AttributeError
  | TemplateError
  | Exception.

Global Instance exception_eq_dec : EqDecision exception.
Proof. solve_decision. Defined.

(** The direct base class of each class. *)
Definition base_class (e : exception) : option exception :=
  match e with
  | FileNotFoundError | PermissionError | IsADirectoryError => Some OSError
  | UnicodeDecodeError | UnicodeEncodeError | JSONDecodeError => Some ValueError
  | KeyError | IndexError => Some LookupError
  | RecursionError => Some RuntimeError
  | OSError | ValueError | RuntimeError | TypeError | LookupError
  | AttributeError | TemplateError => Some Exception
  | Exception => None
  end.

(** [issubclass e c]: an [except c] clause catches [e].  The hierarchy is
    three levels deep. *)
Definition issubclass (e c : exception) : bool :=
  bool_decide (e = c)
  || match base_class e with
     | None => false
     | Some b =>
         bool_decide (b = c)
         || match base_class b with
            | None => false
            | Some b' => bool_decide (b' = c)
            end
     end.

(** A computation either returns or raises. *)
Inductive result (A : Type) : Type :=
  | Ok (a : A)
  | Raise (e : exception).
Arguments Ok {A} a.
Arguments Raise {A} e.

Global Instance result_ret : MRet result := fun A a => Ok a.
Global Instance result_bind : MBind result := fun A B f m =>
  match m with
  | Ok a => f a
  | Raise e => Raise e
  end.

(** [try: body / except classes: handler]. *)
Definition try_except {A} (body : result A) (classes : list exception)
    (handler : exception -> result A) : result A :=
  match body with
  | Ok a => Ok a
  | Raise e =>
      if existsb (issubclass e) classes then handler e else Raise e
  end.

(** ** Built-in operations on values *)

(** [bool(v)]. *)
Definition truthy (v : json) : bool :=
  match v with
  | JNull => false
  | JBool b => b
  | JInt n => negb (Z.eqb n 0)
  | JFloat (S754_zero _) => false
  | JFloat _ => true
  | JStr s => negb (String.eqb s "")
  | JArr xs => negb (bool_decide (xs = []))
  | JObj kvs => negb (bool_decide (kvs = []))
  end.

(** [d.get(k)] on the items of a [dict]. *)
Definition dict_lookup (kvs : list (string * json)) (k : string) : option json :=
  snd <$> find (fun kv => String.eqb (fst kv) k) kvs.

(** [k in s] for two strings: [k] occurs in [s]. *)
Fixpoint is_substring (k s : string) : bool :=
  String.prefix k s
  || match s with
     | EmptyString => false
     | String _ s' => is_substring k s'
     end.

(** The one-character strings that iterating a [str] yields. *)
Fixpoint chars (s : string) : list json :=
  match s with
  | EmptyString => []
  | String c s' => JStr (String c EmptyString) :: chars s'
  end.

Definition is_str (k : string) (v : json) : bool :=
  match v with
  | JStr s => String.eqb s k
  | _ => false
  end.

(** [k in v] for a string [k]: key membership on a [dict], element
    membership on a [list], substring test on a [str]; the other types are
    not containers. *)
Definition py_contains (k : string) (v : json) : result bool :=
  match v with
  | JObj kvs => Ok (bool_decide (is_Some (dict_lookup kvs k)))
  | JArr xs => Ok (existsb (is_str k) xs)
  | JStr s => Ok (is_substring k s)
  | JNull | JBool _ | JInt _ | JFloat _ => Raise TypeError
  end.

(** [v[k]] for a string [k]. *)
Definition py_getitem (v : json) (k : string) : result json :=
  match v with
  | JObj kvs =>
      match dict_lookup kvs k with
      | Some x => Ok x
      | None => Raise KeyError
      end
  | _ => Raise TypeError
  end.

(** [v[0]]. *)
Definition py_getitem0 (v : json) : result json :=
  match v with
  | JArr (x :: _) => Ok x
  | JArr [] => Raise IndexError
  | JStr (String c _) => Ok (JStr (String c EmptyString))
  | JStr EmptyString => Raise IndexError
  | JObj _ => Raise KeyError
  | JNull | JBool _ | JInt _ | JFloat _ => Raise TypeError
  end.

(** [v.get(k, d)]: only a [dict] has the method. *)
Definition py_get (v : json) (k : string) (d : json) : result json :=
  match v with
  | JObj kvs => Ok (default d (dict_lookup kvs k))
  | _ => Raise AttributeError
  end.

(** [iter(v)], as a [for] loop consumes it. *)
Definition py_iter (v : json) : result (list json) :=
  match v with
  | JArr xs => Ok xs
  | JObj kvs => Ok (map (fun kv => JStr (fst kv)) kvs)
  | JStr s => Ok (chars s)
  | JNull | JBool _ | JInt _ | JFloat _ => Raise TypeError
  end.

(** The case maps of ASCII: on ASCII text they are [str.upper] and
    [str.lower]; a character outside ASCII is left as it is. *)
Definition ascii_upper (c : ascii) : ascii :=
  let n := Ascii.nat_of_ascii c in
  if (97 <=? n)%nat && (n <=? 122)%nat then Ascii.ascii_of_nat (n - 32) else c.

Definition ascii_lower (c : ascii) : ascii :=
  let n := Ascii.nat_of_ascii c in
  if (65 <=? n)%nat && (n <=? 90)%nat then Ascii.ascii_of_nat (n + 32) else c.

Fixpoint str_upper (s : string) : string :=
  match s with
  | EmptyString => EmptyString
  | String c s' => String (ascii_upper c) (str_upper s')
  end.

Fixpoint str_lower (s : string) : string :=
  match s with
  | EmptyString => EmptyString
  | String c s' => String (ascii_lower c) (str_lower s')
  end.

(** [v.upper()]: only a [str] has the method. *)
Definition py_upper (v : json) : result string :=
  match v with
  | JStr s => Ok (str_upper s)
  | _ => Raise AttributeError
  end.

(** ** Loops *)

(** [for x in xs: body], with the loop's variables threaded as [s]; an
    exception in the body leaves the loop. *)
Fixpoint for_each {S : Type} (xs : list json) (body : S -> json -> result S)
    (s : S) : result S :=
  match xs with
  | [] => Ok s
  | x :: xs' => s' ← body s x; for_each xs' body s'
  end.

(** [for x in xs: body] where the body may execute [return v]: [Some v] is
    the returned value, [None] means the loop ran to its end. *)
Fixpoint for_return {A : Type} (xs : list json)
    (body : json -> result (option A)) : result (option A) :=
  match xs with
  | [] => Ok None
  | x :: xs' =>
      r ← body x;
      match r with
      | Some v => Ok (Some v)
      | None => for_return xs' body
      end
  end.

(** ** The data model *)

Record Position : Type := { line : json; column : json }.

(** One normalized finding: the [dict] built in [extract_findings].  Every
    entry holds whatever value the input carried, except [level], which is
    the result of [str.upper]. *)
Record Finding : Type := {
  rule_id : json;
  message : json;
  level : string;
  path : json;
  start : Position;
  end_ : Position;
  code : json;
  tags : json
}.

Record ReportData : Type := {
  repository_url : string;
  commit_sha : string;
  scan_date : string;
  semgrep_version : string;
  total_findings : nat;
  high_severity_count : nat;
  medium_severity_count : nat;
  low_severity_count : nat;
  info_severity_count : nat;
  findings : list Finding
}.

(** ** Finding extraction *)

(** [_extract_code_snippet], innermost loop body. *)
Definition snippet_of_location (location : json) : result (option json) :=
  has_location ← py_contains "location" location;
  if has_location : bool then
    inner ← py_getitem location "location";
    has_snippet ← py_contains "snippet" inner;
    if has_snippet : bool then
      inner' ← py_getitem location "location";
      snippet ← py_getitem inner' "snippet";
      text ← py_get snippet "text" (JStr "");
      Ok (Some text)
    else Ok None
  else Ok None.

Definition snippet_of_thread (thread : json) : result (option json) :=
  has_locations ← py_contains "locations" thread;
  if has_locations : bool then
    locations ← py_getitem thread "locations";
    if truthy locations then
      locations' ← py_getitem thread "locations";
      items ← py_iter locations';
      for_return items snippet_of_location
    else Ok None
  else Ok None.

Definition snippet_of_flow (flow : json) : result (option json) :=
  has_threads ← py_contains "threadFlows" flow;
  if has_threads : bool then
    threads ← py_getitem flow "threadFlows";
    if truthy threads then
      threads' ← py_getitem flow "threadFlows";
      items ← py_iter threads';
      for_return items snippet_of_thread
    else Ok None
  else Ok None.

(** [_extract_code_snippet(result)]; Python's [None] is [JNull]. *)
Definition _extract_code_snippet (res : json) : result json :=
  has_flows ← py_contains "codeFlows" res;
  found ←
    (if has_flows : bool then
       flows ← py_getitem res "codeFlows";
       if truthy flows then
         flows' ← py_getitem res "codeFlows";
         items ← py_iter flows';
         for_return items snippet_of_flow
       else Ok None
     else Ok None);
  Ok (default JNull found).

(** [result.get('locations', [{}])[0].get('physicalLocation', {})], the
    prefix shared by the five location lookups of [extract_findings]. *)
Definition physical_location (res : json) : result json :=
  locations ← py_get res "locations" (JArr [JObj []]);
  first ← py_getitem0 locations;
  py_get first "physicalLocation" (JObj []).

Definition region_field (res : json) (k : string) : result json :=
  physical ← physical_location res;
  region ← py_get physical "region" (JObj []);
  py_get region k (JInt 0).

(** The [dict] display of [extract_findings]; its entries are evaluated in
    the order they are written. *)
Definition build_finding (res : json) : result Finding :=
  v_rule_id ← py_get res "ruleId" (JStr "Unknown Rule");
  v_message ← (m ← py_get res "message" (JObj []);
               py_get m "text" (JStr "No message"));
  v_level ← (l ← py_get res "level" (JStr "note"); py_upper l);
  v_path ← (physical ← physical_location res;
            artifact ← py_get physical "artifactLocation" (JObj []);
            py_get artifact "uri" (JStr "Unknown file"));
  start_line ← region_field res "startLine";
  start_column ← region_field res "startColumn";
  end_line ← region_field res "endLine";
  end_column ← region_field res "endColumn";
  v_code ← _extract_code_snippet res;
  v_tags ← py_get res "tags" (JArr []);
  Ok {| rule_id := v_rule_id;
        message := v_message;
        level := v_level;
        path := v_path;
        start := {| line := start_line; column := start_column |};
        end_ := {| line := end_line; column := end_column |};
        code := v_code;
        tags := v_tags |}.

(** Body of the inner loop: [findings.append(finding)]. *)
Definition append_finding (acc : list Finding) (res : json)
    : result (list Finding) :=
  finding ← build_finding res;
  Ok (acc ++ [finding])%list.

(** Body of the outer loop. *)
Definition extract_run (acc : list Finding) (run : json)
    : result (list Finding) :=
  has_results ← py_contains "results" run;
  if has_results : bool then
    results ← py_getitem run "results";
    items ← py_iter results;
    for_each items append_finding acc
  else Ok acc.

Definition extract_findings (semgrep_data : json) : result (list Finding) :=
  if negb (truthy semgrep_data) then Ok []
  else
    has_runs ← py_contains "runs" semgrep_data;
    if negb has_runs then Ok []
    else
      runs ← py_getitem semgrep_data "runs";
      items ← py_iter runs;
      for_each items extract_run [].

(** ** Report data assembly *)

(** The local [dict] [severity_counts]. *)
Definition severity_counts_init : gmap string nat :=
  <["high" := 0]> (<["medium" := 0]> (<["low" := 0]> (<["info" := 0]> ∅))).

(** One iteration of the counting loop. *)
Definition count_finding (severity_counts : gmap string nat)
    (finding : Finding) : gmap string nat :=
  let lvl := str_lower (level finding) in
  match severity_counts !! lvl with
  | Some n => <[lvl := n + 1]> severity_counts
  | None => severity_counts
  end.

Definition count_severities (fs : list Finding) : gmap string nat :=
  foldl count_finding severity_counts_init fs.

(** A reading of the clock, [datetime.now()]. *)
Record datetime : Type := {
  year : nat; month : nat; day : nat;
  hour : nat; minute : nat; second : nat
}.

Definition pad2 (n : nat) : string :=
  if (n <? 10)%nat then "0" ++ pretty n else pretty n.

Definition pad4 (n : nat) : string :=
  if (n <? 10)%nat then "000" ++ pretty n
  else if (n <? 100)%nat then "00" ++ pretty n
  else if (n <? 1000)%nat then "0" ++ pretty n
  else pretty n.

(** [now.strftime('%Y-%m-%d %H:%M:%S UTC')]. *)
Definition strftime (now : datetime) : string :=
  pad4 (year now) ++ "-" ++ pad2 (month now) ++ "-" ++ pad2 (day now) ++ " "
  ++ pad2 (hour now) ++ ":" ++ pad2 (minute now) ++ ":" ++ pad2 (second now)
  ++ " UTC".

(** [generate_report_data(findings, repository_url, commit_sha)], with the
    clock reading passed in.  A caller that omits [repository_url] or
    [commit_sha] gets [unknown]. *)
Definition unknown : string := "Unknown".

Definition generate_report_data (now : datetime) (fs : list Finding)
    (url sha : string) : ReportData :=
  let severity_counts := count_severities fs in
  {| repository_url := url;
     commit_sha := sha;
     scan_date := strftime now;
     semgrep_version := "Latest";
     total_findings := length fs;
     high_severity_count := severity_counts !!! "high";
     medium_severity_count := severity_counts !!! "medium";
     low_severity_count := severity_counts !!! "low";
     info_severity_count := severity_counts !!! "info";
     findings := fs |}.

(** ** Files, the JSON decoder and the template engine *)

(** [open(path, 'r', encoding='utf-8')] followed by reading the whole file:
    the text, or the exception that opening or reading raises. *)
Definition filesystem : Type := string -> result string.

(** [json.load] on the text of a file: the decoded value, or the exception
    the decoder raises, [JSONDecodeError] on a text that is not valid JSON
    and, on valid JSON, [ValueError] for an integer beyond the digit limit
    and [RecursionError] for nesting beyond the recursion limit. *)
Class JsonDecoder : Type := json_loads : string -> result json.

(** What one of the two handlers hands to [print]: [e] is the
    exception that was caught in [parse_semgrep_output], [description] the
    text of the one caught in [generate_html]. *)
Inductive diagnostic : Type :=
  | error_reading_json (e : exception)
  | error_generating_html (description : string).

(** Standard output: [None] when the text is printed, the exception that
    [print] raises otherwise, for want of an encoding of the text or of an
    open stream. *)
Definition stdout : Type := diagnostic -> option exception.

Definition print (out : stdout) (m : diagnostic) : result unit :=
  match out m with
  | None => Ok tt
  | Some e => Raise e
  end.

(** A standard output that prints whatever it is given. *)
Definition accepting : stdout := fun _ => None.

Inductive render_outcome : Type :=
  | Rendered (html : string)
  | RenderFailed (e : exception) (description : string).

(** The part of Jinja2 the generator uses: [Template(source)], which may
    raise, and [Template.render] on the report's entries passed as keyword
    arguments, which returns the text or
    raises an exception [e] whose [str(e)] is [description]. *)
Class Jinja2 : Type := {
  template : Type;
  Template : string -> result template;
  render : template -> ReportData -> render_outcome
}.

Definition dquote : string := String "034"%char EmptyString.

Definition fallback_html : string :=
  "
        <!DOCTYPE html>
        <html>
        <head>
            <title>Semgrep Security Report</title>
            <style>
                body { font-family: Arial, sans-serif; margin: 20px; }
                .finding { border: 1px solid #ddd; margin: 10px 0; padding: 15px; }
                .high { border-left: 5px solid #dc3545; }
                .medium { border-left: 5px solid #fd7e14; }
                .low { border-left: 5px solid #28a745; }
                .info { border-left: 5px solid #17a2b8; }
            </style>
        </head>
        <body>
            <h1>Semgrep Security Scan Report</h1>
            <p><strong>Generated:</strong> {{ scan_date }}</p>
            <p><strong>Total Findings:</strong> {{ total_findings }}</p>
            
            {% for finding in findings %}
            <div class="
  ++ dquote ++ "finding {{ finding.level.lower() }}" ++ dquote ++
  ">
                <h3>{{ finding.rule_id }}</h3>
                <p><strong>Severity:</strong> {{ finding.level }}</p>
                <p><strong>Message:</strong> {{ finding.message }}</p>
                <p><strong>File:</strong> {{ finding.path }}:{{ finding.start.line }}</p>
                {% if finding.code %}
                <pre><code>{{ finding.code }}</code></pre>
                {% endif %}
            </div>
            {% endfor %}
        </body>
        </html>
        ".

Definition default_template_path : string :=
  "/app/templates/report_template.html".

Definition render_error_html (description : string) : string :=
  "<html><body><h1>Error generating report</h1><p>" ++ description
  ++ "</p></body></html>".

Section Generator.
Context {decoder : JsonDecoder} {engine : Jinja2}.

Record SemgrepReportGenerator : Type := {
  self_template_path : string;
  self_template : template
}.

Definition _get_fallback_template : result template :=
  Template fallback_html.

Definition _load_template (fs : filesystem) (template_path : string)
    : result template :=
  try_except
    (text ← fs template_path; Template text)
    [FileNotFoundError]
    (fun _ => _get_fallback_template).

(** [SemgrepReportGenerator(template_path)]. *)
Definition __init__ (fs : filesystem) (template_path : string)
    : result SemgrepReportGenerator :=
  t ← _load_template fs template_path;
  Ok {| self_template_path := template_path; self_template := t |}.

Definition parse_semgrep_output (out : stdout) (fs : filesystem)
    (json_file : string) : result json :=
  try_except
    (text ← fs json_file; json_loads text)
    [FileNotFoundError; JSONDecodeError]
    (fun e => _ ← print out (error_reading_json e); Ok (JObj [])).

Definition generate_html (out : stdout) (self : SemgrepReportGenerator)
    (report_data : ReportData) : result string :=
  match render (self_template self) report_data with
  | Rendered html => Ok html
  | RenderFailed e description =>
      if issubclass e Exception then
        _ ← print out (error_generating_html description);
        Ok (render_error_html description)
      else Raise e
  end.
End Generator.

(** ** Vocabulary of the properties *)

(** The four keys of [severity_counts]. *)
Definition bucket_names : list string := ["high"; "medium"; "low"; "info"].

(** Number of findings whose lower-cased level is [b]. *)
Definition count_level (b : string) (fs : list Finding) : nat :=
  length (filter (fun f => str_lower (level f) = b) fs).

(** A finding whose lower-cased level is none of the four keys. *)
Definition unbucketed (f : Finding) : Prop :=
  str_lower (level f) ∉ bucket_names.

Global Instance unbucketed_dec f : Decision (unbucketed f).
Proof. unfold unbucketed. apply _. Defined.

Definition bucket_sum (fs : list Finding) : nat :=
  (count_level "high" fs + count_level "medium" fs
   + count_level "low" fs + count_level "info" fs)%nat.

(** The finding built from a result that carries no entry at all. *)
Definition default_finding : Finding :=
  {| rule_id := JStr "Unknown Rule";
     message := JStr "No message";
     level := "NOTE";
     path := JStr "Unknown file";
     start := {| line := JInt 0; column := JInt 0 |};
     end_ := {| line := JInt 0; column := JInt 0 |};
     code := JNull;
     tags := JArr [] |}.

(** A finding that carries only a level. *)
Definition finding_of_level (l : string) : Finding :=
  {| rule_id := JNull; message := JNull; level := l; path := JNull;
     start := {| line := JNull; column := JNull |};
     end_ := {| line := JNull; column := JNull |};
     code := JNull; tags := JNull |}.

(** [{"runs": [{"results": results}]}]. *)
Definition single_run (results : list json) : json :=
  JObj [("runs", JArr [JObj [("results", JArr results)]])].

(** [{"locations": []}]: a result whose list of locations is present and
    empty. *)
Definition empty_locations_result : json := JObj [("locations", JArr [])].

(** *** Reading a document by its documented shape *)

(** The entry [k] of an object. *)
Definition field (k : string) (v : json) : option json :=
  match v with
  | JObj kvs => dict_lookup kvs k
  | _ => None
  end.

(** The items of the list under [k]; none when the entry is missing. *)
Definition list_field (k : string) (v : json) : list json :=
  match field k v with
  | Some (JArr xs) => xs
  | _ => []
  end.

(** The results of one run, and of all runs in order. *)
Definition run_results (run : json) : list json := list_field "results" run.

Definition all_results (runs : list json) : list json :=
  concat (map run_results runs).

(** A run is an object whose [results], when present, is a list. *)
Definition run_ok (run : json) : bool :=
  match run with
  | JObj kvs =>
      match dict_lookup kvs "results" with
      | None | Some (JArr _) => true
      | Some _ => false
      end
  | _ => false
  end.

(** Every location of every thread flow of every code flow, in order. *)
Definition all_locations (res : json) : list json :=
  concat (map (fun flow =>
                 concat (map (list_field "locations")
                             (list_field "threadFlows" flow)))
              (list_field "codeFlows" res)).

(** The [snippet] object of a location, when it has one. *)
Definition location_snippet (location : json) : option json :=
  inner ← field "location" location; field "snippet" inner.

(** The first element of [xs] on which [g] is defined. *)
Fixpoint first_some {A B : Type} (g : A -> option B) (xs : list A) : option B :=
  match xs with
  | [] => None
  | x :: xs' =>
      match g x with
      | Some b => Some b
      | None => first_some g xs'
      end
  end.

(** The text of a snippet object: its [text] entry, or the empty string. *)
Definition snippet_text (snippet : json) : json :=
  default (JStr "") (field "text" snippet).

(** The text of the first snippet in traversal order; [JNull] when no
    location holds a snippet. *)
Definition first_snippet_text (res : json) : json :=
  default JNull (snippet_text <$> first_some location_snippet (all_locations res)).

(** The documented shape of the code flows of a result. *)
Definition location_ok (location : json) : bool :=
  match location with
  | JObj kvs =>
      match dict_lookup kvs "location" with
      | None => true
      | Some (JObj inner) =>
          match dict_lookup inner "snippet" with
          | None | Some (JObj _) => true
          | Some _ => false
          end
      | Some _ => false
      end
  | _ => false
  end.

Definition thread_ok (thread : json) : bool :=
  match thread with
  | JObj kvs =>
      match dict_lookup kvs "locations" with
      | None => true
      | Some (JArr locations) => forallb location_ok locations
      | Some _ => false
      end
  | _ => false
  end.

Definition flow_ok (flow : json) : bool :=
  match flow with
  | JObj kvs =>
      match dict_lookup kvs "threadFlows" with
      | None => true
      | Some (JArr threads) => forallb thread_ok threads
      | Some _ => false
      end
  | _ => false
  end.

Definition code_flows_ok (res : json) : bool :=
  match res with
  | JObj kvs =>
      match dict_lookup kvs "codeFlows" with
      | None => true
      | Some (JArr flows) => forallb flow_ok flows
      | Some _ => false
      end
  | _ => false
  end.

(** A location that holds the snippet object [snippet], and a result with
    the given code flows, each a list of thread flows, each a list of
    locations. *)
Definition location_with (snippet : json) : json :=
  JObj [("location", JObj [("snippet", snippet)])].

Definition plain_location : json := JObj [("location", JObj [])].

Definition thread_of (locations : list json) : json :=
  JObj [("locations", JArr locations)].

Definition flow_of (threads : list json) : json :=
  JObj [("threadFlows", JArr threads)].

Definition result_with_flows (flows : list json) : json :=
  JObj [("codeFlows", JArr flows)].

(** *** Sample environments *)

(** A file system that holds nothing but [text] at [path]. *)
Definition single_file (path text : string) : filesystem :=
  fun p => if String.eqb p path then Ok text else Raise FileNotFoundError.

(** A file system in which opening any path is refused. *)
Definition no_access : filesystem := fun _ => Raise PermissionError.

(** A decoder that knows the two shortest documents. *)
Definition tiny_decoder : JsonDecoder :=
  fun text =>
    if String.eqb text "{}" then Ok (JObj [])
    else if String.eqb text "[]" then Ok (JArr [])
    else Raise JSONDecodeError.

(** An engine whose templates are their own source text; rendering fails on
    an empty template and otherwise prints the source followed by the number
    of findings. *)
Definition echo_engine : Jinja2 :=
  {| template := string;
     Template := fun source => Ok source;
     render := fun t data =>
       if String.eqb t "" then RenderFailed TemplateError "empty template"
       else Rendered (t ++ pretty (total_findings data)) |}.

Definition sample_now : datetime :=
  {| year := 2024; month := 3; day := 7; hour := 9; minute := 5; second := 0 |}.

(** The snippet text as the specification words it: the first text that is
    present, skipping snippets without one. *)
Definition present_text (location : json) : option json :=
  snippet ← location_snippet location;
  text ← field "text" snippet;
  match text with
  | JNull => None
  | _ => Some text
  end.

Definition claimed_snippet_text (res : json) : json :=
  default JNull (first_some present_text (all_locations res)).

(** One thread flow whose first location holds a snippet without text and
    whose second holds a snippet with the text [x]. *)
Definition textless_then_text : json :=
  result_with_flows
    [flow_of [thread_of [location_with (JObj []);
                         location_with (JObj [("text", JStr "x")])]]].

(** One location, holding a snippet without text. *)
Definition textless_only : json :=
  result_with_flows [flow_of [thread_of [location_with (JObj [])]]].

(** Two code flows, of which only the second holds a snippet. *)
Definition two_flows (text : json) : json :=
  result_with_flows
    [flow_of [thread_of [plain_location]];
     flow_of [thread_of [location_with (JObj [("text", text)])]]].

(** A generator over [echo_engine] holding the template [source]. *)
Definition echo_generator (source : string) : @SemgrepReportGenerator echo_engine :=
  @Build_SemgrepReportGenerator echo_engine default_template_path source.

(** *** The documented shape of a result *)

Definition object_or_missing (o : option json) : bool :=
  match o with
  | None | Some (JObj _) => true
  | Some _ => false
  end.

Definition physical_ok (physical : json) : bool :=
  match physical with
  | JObj kvs =>
      object_or_missing (dict_lookup kvs "artifactLocation")
      && object_or_missing (dict_lookup kvs "region")
  | _ => false
  end.

(** A list of locations that has a first element, an object. *)
Definition first_location_ok (locations : json) : bool :=
  match locations with
  | JArr (JObj kvs :: _) =>
      match dict_lookup kvs "physicalLocation" with
      | None => true
      | Some physical => physical_ok physical
      end
  | _ => false
  end.

(** A result every optional entry of which is either missing or of its
    documented type, and whose [locations], when present, is not empty. *)
Definition result_ok (res : json) : bool :=
  match res with
  | JObj kvs =>
      object_or_missing (dict_lookup kvs "message")
      && match dict_lookup kvs "level" with
         | None | Some (JStr _) => true
         | Some _ => false
         end
      && match dict_lookup kvs "locations" with
         | None => true
         | Some locations => first_location_ok locations
         end
      && code_flows_ok res
  | _ => false
  end.

(** A file system on which every file holds bytes that are not UTF-8, so
    that reading it as text raises. *)
Definition undecodable : filesystem := fun _ => Raise UnicodeDecodeError.

(** A standard output that cannot encode what it is given. *)
Definition refusing : stdout := fun _ => Some UnicodeEncodeError.

Fixpoint all_digits (s : string) : bool :=
  match s with
  | EmptyString => true
  | String c s' =>
      let n := Ascii.nat_of_ascii c in
      (48 <=? n)%nat && (n <=? 57)%nat && all_digits s'
  end.

Fixpoint digits_value (acc : Z) (s : string) : Z :=
  match s with
  | EmptyString => acc
  | String c s' =>
      digits_value (10 * acc + Z.of_nat (Ascii.nat_of_ascii c - 48)) s'
  end.

(** A decoder for the empty mapping and for integer literals without a
    leading zero, with the digit limit of the interpreter: a literal of more
    than 4300 digits, valid JSON, raises [ValueError]. *)
Definition digit_limit_decoder : JsonDecoder :=
  fun text =>
    if String.eqb text "{}" then Ok (JObj [])
    else if all_digits text && negb (String.prefix "0" text)
            && negb (String.eqb text "") then
      if (4300 <? String.length text)%nat then Raise ValueError
      else Ok (JInt (digits_value 0 text))
    else Raise JSONDecodeError.

(** An integer literal of [n] digits. *)
Fixpoint sevens (n : nat) : string :=
  match n with
  | O => EmptyString
  | S n' => String "7" (sevens n')
  end.

(** Text all of whose characters are ASCII. *)
Fixpoint is_ascii (s : string) : bool :=
  match s with
  | EmptyString => true
  | String c s' => (Ascii.nat_of_ascii c <? 128)%nat && is_ascii s'
  end.

(** ** Saving the report and the entry point *)

(** What the program observes of its surroundings: reading a file as text,
    [os.path.exists], the outcome of writing a text to a path ([None] when
    the write went through, the exception otherwise) and the clock. *)
Record os : Type := {
  os_read : filesystem;
  os_exists : string -> bool;
  os_write : string -> string -> option exception;
  os_now : datetime
}.

(** The writes a run performs, in order. *)
Inductive event : Type :=
  | Written (path content : string)
  | WriteFailed (path : string) (e : exception).

(** [save_report(html_content, output_file)]: the returned flag and the
    write it attempted. *)
Definition save_report (env : os) (html_content output_file : string)
    : result bool * list event :=
  match os_write env output_file html_content with
  | None => (Ok true, [Written output_file html_content])
  | Some e =>
      (if issubclass e Exception then Ok false else Raise e,
       [WriteFailed output_file e])
  end.

Section Program.
Context {decoder : JsonDecoder} {engine : Jinja2}.

(** [main()] on the argument vector [argv], program name first, on a
    standard output that prints every message.  The outcome is the exit
    status ([sys.exit(1)] is [Ok 1], falling off the end is [Ok 0]) or the
    exception that nothing catches, with the writes that were attempted. *)
Definition main (argv : list string) (env : os) : result nat * list event :=
  match argv with
  | _ :: json_file :: output_html :: rest =>
      let repository_url :=
        match rest with
        | url :: _ => url
        | [] => "Unknown"
        end in
      let commit_sha :=
        match rest with
        | _ :: sha :: _ => sha
        | _ => "Unknown"
        end in
      if negb (os_exists env json_file) then (Ok 1%nat, [])
      else
        match __init__ (os_read env) default_template_path with
        | Raise e => (Raise e, [])
        | Ok generator =>
            match parse_semgrep_output accepting (os_read env) json_file with
            | Raise e => (Raise e, [])
            | Ok semgrep_data =>
                if negb (truthy semgrep_data) then (Ok 1%nat, [])
                else
                  match extract_findings semgrep_data with
                  | Raise e => (Raise e, [])
                  | Ok fs =>
                      let report_data :=
                        generate_report_data (os_now env) fs
                          repository_url commit_sha in
                      match generate_html accepting generator report_data with
                      | Raise e => (Raise e, [])
                      | Ok html_content =>
                          match save_report env html_content output_html with
                          | (Ok true, events) => (Ok 0%nat, events)
                          | (Ok false, events) => (Ok 1%nat, events)
                          | (Raise e, events) => (Raise e, events)
                          end
                      end
                  end
            end
        end
  | _ => (Ok 1%nat, [])
  end.
End Program.

(** *** Reading a result by paths of keys *)

(** Follow [keys] from [v]; nothing when a link is missing. *)
Fixpoint get_path (keys : list string) (v : json) : option json :=
  match keys with
  | [] => Some v
  | k :: keys' => inner ← field k v; get_path keys' inner
  end.

Definition get_or_default (keys : list string) (v d : json) : json :=
  default d (get_path keys v).

(** The first location of a result; the empty object when the result has no
    [locations]. *)
Definition first_location (res : json) : json :=
  match field "locations" res with
  | Some (JArr (l :: _)) => l
  | _ => JObj []
  end.

(** The level a result carries, [note] when it carries none. *)
Definition level_text (res : json) : string :=
  match field "level" res with
  | Some (JStr s) => s
  | _ => "note"
  end.

Definition region_path (k : string) : list string :=
  ["physicalLocation"; "region"; k].

(** The finding of a result, read off by paths. *)
Definition finding_by_paths (res : json) : Finding :=
  let loc := first_location res in
  {| rule_id := get_or_default ["ruleId"] res (JStr "Unknown Rule");
     message := get_or_default ["message"; "text"] res (JStr "No message");
     level := str_upper (level_text res);
     path := get_or_default ["physicalLocation"; "artifactLocation"; "uri"]
               loc (JStr "Unknown file");
     start := {| line := get_or_default (region_path "startLine") loc (JInt 0);
                 column := get_or_default (region_path "startColumn") loc (JInt 0) |};
     end_ := {| line := get_or_default (region_path "endLine") loc (JInt 0);
                column := get_or_default (region_path "endColumn") loc (JInt 0) |};
     code := first_snippet_text res;
     tags := get_or_default ["tags"] res (JArr []) |}.


(** The number of results whose level, lower-cased, is [b]. *)
Definition count_result_level (b : string) (rs : list json) : nat :=
  length (filter (fun r => str_lower (level_text r) = b) rs).

(** *** More sample data *)

(** A result with two locations, at lines 3 and 9. *)
Definition location_at (n : Z) : json :=
  JObj [("physicalLocation", JObj [("region", JObj [("startLine", JInt n)])])].

Definition two_locations (second : json) : json :=
  JObj [("ruleId", JStr "r"); ("locations", JArr [location_at 3; second])].

(** Surroundings in which the input [in.json] holds [text], no template is
    installed and every write is answered by [answer]. *)
Definition sample_os (text : string) (answer : option exception) : os :=
  {| os_read := single_file "in.json" text;
     os_exists := fun p => String.eqb p "in.json";
     os_write := fun _ _ => answer;
     os_now := sample_now |}.

(** A decoder for the documents used as samples. *)
Definition sample_decoder : JsonDecoder :=
  fun text =>
    if String.eqb text "{}" then Ok (JObj [])
    else if String.eqb text "one" then Ok (single_run [JObj []])
    else if String.eqb text "bad" then Ok (single_run [empty_locations_result])
    else Raise JSONDecodeError.

(** The four severity counters of a report, high first. *)
Definition severity_counters (r : ReportData) : nat * nat * nat * nat :=
  (high_severity_count r, medium_severity_count r,
   low_severity_count r, info_severity_count r).

(** The path a write event concerns. *)
Definition event_path (ev : event) : string :=
  match ev with
  | Written p _ | WriteFailed p _ => p
  end.

(** An engine that refuses to compile the empty source. *)
Definition strict_engine : Jinja2 :=
  {| template := string;
     Template := fun source =>
       if String.eqb source "" then Raise TemplateError else Ok source;
     render := fun t data => Rendered (t ++ pretty (total_findings data)) |}.

(** What [main] does once the input exists and the generator is built. *)
Inductive stage_failure {decoder : JsonDecoder} (env : os) (json_file : string)
    (e : exception) : Prop :=
  | parse_fails :
      parse_semgrep_output accepting (os_read env) json_file = Raise e ->
      stage_failure env json_file e
  | extract_fails data :
      parse_semgrep_output accepting (os_read env) json_file = Ok data ->
      truthy data = true ->
      extract_findings data = Raise e ->
      stage_failure env json_file e.

(** * Properties *)

(** ** The exception monad *)

(** Case analysis on a value that a hypothesis or the goal forces to be an
    object. *)
Ltac object_case v kvs := destruct v as [| | | | |?|kvs]; try discriminate.

Lemma bind_Ok {A B} (a : A) (k : A -> result B) : (Ok a ≫= k) = k a.
Proof. reflexivity. Qed.

Lemma bind_Raise {A B} e (k : A -> result B) : (Raise e ≫= k) = Raise e.
Proof. reflexivity. Qed.

Lemma bind_Ok_inv {A B} (m : result A) (k : A -> result B) b :
  m ≫= k = Ok b -> exists a, m = Ok a /\ k a = Ok b.
Proof. destruct m as [a|e]; [eauto|discriminate]. Qed.

(** ** Severity counters *)


Lemma count_level_cons b f fs :
  count_level b (f :: fs) =
  ((if decide (str_lower (level f) = b) then 1 else 0) + count_level b fs)%nat.
Proof.
  unfold count_level. rewrite filter_cons.
  destruct (decide (str_lower (level f) = b)); reflexivity.
Qed.

Lemma count_finding_lookup (m : gmap string nat) f b :
  count_finding m f !! b =
  (fun n => (n + if decide (str_lower (level f) = b) then 1 else 0)%nat) <$> m !! b.
Proof.
  unfold count_finding.
  destruct (decide (str_lower (level f) = b)) as [->|Hne].
  - destruct (m !! b) as [n|] eqn:Hb.
    + rewrite lookup_insert_eq. reflexivity.
    + rewrite Hb. reflexivity.
  - destruct (m !! str_lower (level f)) as [n|] eqn:Hl.
    + rewrite lookup_insert_ne by done.
      destruct (m !! b); simpl; f_equal; lia.
    + destruct (m !! b); simpl; f_equal; lia.
Qed.

Lemma foldl_count_finding_lookup fs : forall (m : gmap string nat) b,
  foldl count_finding m fs !! b = (fun n => (n + count_level b fs)%nat) <$> m !! b.
Proof.
  induction fs as [|f fs IH]; intros m b; simpl.
  - destruct (m !! b); simpl; f_equal. unfold count_level. simpl. lia.
  - rewrite IH, count_finding_lookup, count_level_cons.
    destruct (m !! b); simpl; f_equal. lia.
Qed.

Lemma severity_counts_init_lookup b :
  severity_counts_init !! b = if bool_decide (b ∈ bucket_names) then Some 0%nat else None.
Proof.
  unfold severity_counts_init, bucket_names.
  case_bool_decide as Hin.
  - repeat (apply elem_of_cons in Hin as [->|Hin]); [..|by apply elem_of_nil in Hin];
      by simplify_map_eq.
  - rewrite !lookup_insert_ne, lookup_empty; [done|..];
      intros <-; apply Hin; set_solver.
Qed.

Lemma count_severities_lookup fs b :
  count_severities fs !! b =
  if bool_decide (b ∈ bucket_names) then Some (count_level b fs) else None.
Proof.
  unfold count_severities.
  rewrite foldl_count_finding_lookup, severity_counts_init_lookup.
  case_bool_decide; reflexivity.
Qed.

Lemma count_severities_bucket fs b :
  b ∈ bucket_names -> count_severities fs !!! b = count_level b fs.
Proof.
  intros Hin. rewrite lookup_total_alt, count_severities_lookup.
  rewrite bool_decide_eq_true_2 by done. reflexivity.
Qed.

Lemma bucket_sum_cons f fs :
  bucket_sum (f :: fs) =
  ((if decide (unbucketed f) then 0 else 1) + bucket_sum fs)%nat.
Proof.
  unfold bucket_sum. rewrite !count_level_cons.
  destruct (decide (unbucketed f)) as [Hu|Hb]; unfold unbucketed, bucket_names in *.
  - repeat case_decide; try lia; exfalso; apply Hu; set_solver.
  - apply dec_stable in Hb.
    repeat (apply elem_of_cons in Hb as [->|Hb]); [..|by apply elem_of_nil in Hb];
      repeat case_decide; try congruence; lia.
Qed.

Lemma bucket_sum_partition fs :
  (bucket_sum fs + length (filter unbucketed fs))%nat = length fs.
Proof.
  induction fs as [|f fs IH]; [reflexivity|].
  rewrite bucket_sum_cons, filter_cons.
  destruct (decide (unbucketed f)); simpl; lia.
Qed.

Lemma filter_unbucketed_pos fs :
  Exists unbucketed fs -> (0 < length (filter unbucketed fs))%nat.
Proof.
  induction 1 as [f fs Hf|f fs _ IH]; rewrite filter_cons;
    destruct (decide (unbucketed f)); simpl; try lia; done.
Qed.

Lemma report_counter_sum now fs url sha :
  let r := generate_report_data now fs url sha in
  (high_severity_count r + medium_severity_count r
   + low_severity_count r + info_severity_count r)%nat = bucket_sum fs.
Proof.
  simpl. unfold bucket_sum.
  rewrite !count_severities_bucket; [reflexivity|..]; unfold bucket_names; set_solver.
Qed.

(** C4: the report's [total_findings] is the length of [findings]; the four
    severity counters sum to at most [total_findings], and to strictly less
    as soon as one finding's lower-cased level is none of high, medium, low
    and info. *)
Theorem report_data_invariant now fs url sha :
  let r := generate_report_data now fs url sha in
  let counted := (high_severity_count r + medium_severity_count r
                  + low_severity_count r + info_severity_count r)%nat in
  total_findings r = length (findings r)
  /\ (counted <= total_findings r)%nat
  /\ (Exists unbucketed fs -> (counted < total_findings r)%nat).
Proof.
  intros r counted.
  assert (counted = bucket_sum fs) as -> by apply report_counter_sum.
  subst r. simpl.
  pose proof (bucket_sum_partition fs) as Hp.
  split; [reflexivity|]. split; [lia|].
  intros Hex. apply filter_unbucketed_pos in Hex. lia.
Qed.

Lemma report_data_invariant_witness :
  let r := generate_report_data sample_now
             [finding_of_level "HIGH"; finding_of_level "bogus"] unknown unknown in
  (high_severity_count r + medium_severity_count r
   + low_severity_count r + info_severity_count r < total_findings r)%nat.
Proof.
  apply (report_data_invariant sample_now
           [finding_of_level "HIGH"; finding_of_level "bogus"] unknown unknown).
  apply Exists_cons_tl, Exists_cons_hd. unfold unbucketed. vm_compute.
  intros H. repeat (apply elem_of_cons in H as [H|H]; [discriminate H|]).
  by apply elem_of_nil in H.
Defined.

Lemma count_finding_unbucketed fs f :
  unbucketed f -> count_finding (count_severities fs) f = count_severities fs.
Proof.
  intros Hu. unfold count_finding.
  rewrite count_severities_lookup, bool_decide_eq_false_2 by exact Hu.
  reflexivity.
Qed.

Lemma count_level_nil b : count_level b [] = 0%nat.
Proof. reflexivity. Qed.

(** C5: each severity counter is the number of findings whose lower-cased
    level is that bucket's name, a finding with any other level leaves every
    counter as it was, and the levels HIGH, high, Medium, bogus give high 2,
    medium 1, low 0, info 0 and total 4. *)
Theorem severity_counters_by_level :
  (forall now fs url sha,
     let r := generate_report_data now fs url sha in
     high_severity_count r = count_level "high" fs
     /\ medium_severity_count r = count_level "medium" fs
     /\ low_severity_count r = count_level "low" fs
     /\ info_severity_count r = count_level "info" fs)
  /\ (forall fs f,
        unbucketed f -> count_severities (fs ++ [f]) = count_severities fs)
  /\ (forall now fs url sha,
        map level fs = ["HIGH"; "high"; "Medium"; "bogus"] ->
        let r := generate_report_data now fs url sha in
        high_severity_count r = 2%nat /\ medium_severity_count r = 1%nat
        /\ low_severity_count r = 0%nat /\ info_severity_count r = 0%nat
        /\ total_findings r = 4%nat).
Proof.
  assert (Hgen : forall now fs url sha,
     let r := generate_report_data now fs url sha in
     high_severity_count r = count_level "high" fs
     /\ medium_severity_count r = count_level "medium" fs
     /\ low_severity_count r = count_level "low" fs
     /\ info_severity_count r = count_level "info" fs).
  { intros now fs url sha. simpl.
    rewrite !count_severities_bucket; [tauto|..]; unfold bucket_names; set_solver. }
  split; [exact Hgen|]. split.
  - intros fs f Hu. unfold count_severities at 1. rewrite foldl_app. simpl.
    apply count_finding_unbucketed, Hu.
  - intros now fs url sha Hl r.
    destruct (Hgen now fs url sha) as (Hh & Hm & Hlo & Hi). fold r in Hh, Hm, Hlo, Hi.
    rewrite Hh, Hm, Hlo, Hi. subst r. simpl total_findings.
    destruct fs as [|f1 [|f2 [|f3 [|f4 [|f5 fs]]]]]; try discriminate Hl.
    simpl in Hl. injection Hl as H1 H2 H3 H4.
    rewrite !count_level_cons, !count_level_nil, H1, H2, H3, H4.
    repeat split.
Qed.

Lemma severity_counters_by_level_witness :
  let r := generate_report_data sample_now
             (map finding_of_level ["HIGH"; "high"; "Medium"; "bogus"])
             unknown unknown in
  high_severity_count r = 2%nat /\ medium_severity_count r = 1%nat
  /\ low_severity_count r = 0%nat /\ info_severity_count r = 0%nat
  /\ total_findings r = 4%nat.
Proof.
  apply (proj2 (proj2 severity_counters_by_level)). reflexivity.
Defined.

(** C10: whatever the repository URL and the commit identifier, the
    [findings] entry of the report is the sequence that was passed in, with
    the same records in the same order, and the URL and the commit
    identifier are carried over as given. *)
Theorem report_data_keeps_findings now fs url sha :
  let r := generate_report_data now fs url sha in
  findings r = fs /\ repository_url r = url /\ commit_sha r = sha.
Proof. repeat split. Qed.

(** ** Code snippets *)

Lemma for_return_pure {A} (body : json -> result (option A)) g xs :
  Forall (fun x => body x = Ok (g x)) xs ->
  for_return xs body = Ok (first_some g xs).
Proof.
  induction 1 as [|x xs Hx _ IH]; [reflexivity|].
  cbn [for_return first_some]. rewrite Hx, bind_Ok.
  destruct (g x); [reflexivity|exact IH].
Qed.

Lemma first_some_concat {A B C} (g : B -> option C) (f : A -> list B) xs :
  first_some (fun x => first_some g (f x)) xs = first_some g (concat (map f xs)).
Proof.
  induction xs as [|x xs IH]; [reflexivity|]. simpl. rewrite IH. clear IH.
  induction (f x) as [|y ys IHy]; [reflexivity|]. simpl.
  destruct (g y); [reflexivity|exact IHy].
Qed.

Lemma first_some_fmap {A B C} (h : B -> C) (g : A -> option B) xs :
  first_some (fun x => h <$> g x) xs = h <$> first_some g xs.
Proof.
  induction xs as [|x xs IH]; [reflexivity|]. simpl.
  destruct (g x); [reflexivity|exact IH].
Qed.

Lemma forallb_Forall_impl {A} (p : A -> bool) (P : A -> Prop) xs :
  (forall x, p x = true -> P x) -> forallb p xs = true -> Forall P xs.
Proof.
  intros Hp. induction xs as [|x xs IH]; simpl; [constructor|].
  intros [Hx Hxs]%andb_true_iff. constructor; auto.
Qed.

Lemma snippet_of_location_ok location :
  location_ok location = true ->
  snippet_of_location location = Ok (snippet_text <$> location_snippet location).
Proof.
  object_case location kvs.
  unfold snippet_of_location, location_snippet. simpl.
  destruct (dict_lookup kvs "location") as [inner|] eqn:Hl; simpl; [|reflexivity].
  object_case inner ikvs. simpl.
  destruct (dict_lookup ikvs "snippet") as [snippet|] eqn:Hs; simpl; [|reflexivity].
  object_case snippet skvs. intros _. reflexivity.
Qed.

Lemma snippet_of_thread_ok thread :
  thread_ok thread = true ->
  snippet_of_thread thread =
  Ok (first_some (fun l => snippet_text <$> location_snippet l)
                 (list_field "locations" thread)).
Proof.
  object_case thread kvs.
  unfold snippet_of_thread, list_field. simpl.
  destruct (dict_lookup kvs "locations") as [locations|] eqn:Hl; simpl; [|reflexivity].
  destruct locations as [| | | | |locations|?]; try discriminate. intros Hok.
  destruct locations as [|l ls]; [reflexivity|].
  change (truthy (JArr (l :: ls))) with true. cbn [py_iter]. rewrite bind_Ok.
  apply for_return_pure.
  eapply forallb_Forall_impl, Hok. exact snippet_of_location_ok.
Qed.

Lemma snippet_of_flow_ok flow :
  flow_ok flow = true ->
  snippet_of_flow flow =
  Ok (first_some (fun l => snippet_text <$> location_snippet l)
                 (concat (map (list_field "locations")
                              (list_field "threadFlows" flow)))).
Proof.
  object_case flow kvs.
  unfold snippet_of_flow, list_field at 2. simpl.
  destruct (dict_lookup kvs "threadFlows") as [threads|] eqn:Hl; simpl; [|reflexivity].
  destruct threads as [| | | | |threads|?]; try discriminate. intros Hok.
  destruct threads as [|t ts]; [reflexivity|].
  change (truthy (JArr (t :: ts))) with true. cbn [py_iter]. rewrite bind_Ok.
  rewrite <- first_some_concat. apply for_return_pure.
  eapply forallb_Forall_impl, Hok. exact snippet_of_thread_ok.
Qed.

Lemma extract_code_snippet_ok res :
  code_flows_ok res = true ->
  _extract_code_snippet res = Ok (first_snippet_text res).
Proof.
  object_case res kvs.
  unfold _extract_code_snippet, first_snippet_text, all_locations, list_field at 3.
  rewrite <- first_some_fmap. simpl.
  destruct (dict_lookup kvs "codeFlows") as [flows|] eqn:Hl; simpl; [|reflexivity].
  destruct flows as [| | | | |flows|?]; try discriminate. intros Hok.
  destruct flows as [|fl fls]; [reflexivity|].
  change (truthy (JArr (fl :: fls))) with true. cbn [py_iter]. rewrite bind_Ok.
  rewrite <- first_some_concat.
  erewrite for_return_pure; [reflexivity|].
  eapply forallb_Forall_impl, Hok. exact snippet_of_flow_ok.
Qed.

(** C6 as stated fails: the search stops at the first snippet object and
    answers with the empty string when that snippet has no text, although a
    later snippet has the text [x], and although no text exists at all. *)
Lemma snippet_without_text_counterexample :
  (_extract_code_snippet textless_then_text = Ok (JStr "")
   /\ claimed_snippet_text textless_then_text = JStr "x"
   /\ _extract_code_snippet textless_then_text
      <> Ok (claimed_snippet_text textless_then_text))
  /\ (_extract_code_snippet textless_only = Ok (JStr "")
      /\ claimed_snippet_text textless_only = JNull
      /\ _extract_code_snippet textless_only
         <> Ok (claimed_snippet_text textless_only)).
Proof. repeat split; discriminate. Qed.

(** C6, amended: on a result whose code flows, thread flows and locations
    are lists of objects where present, [_extract_code_snippet] goes through
    the code flows, their thread flows and their locations in list order and
    returns the text of the first location that holds a snippet object, the
    empty string when that snippet has no text entry, and nothing when no
    location holds a snippet; with two code flows of which only the second
    holds a snippet, that snippet's text is returned. *)
Theorem extract_code_snippet_first_snippet :
  (forall res,
     code_flows_ok res = true ->
     _extract_code_snippet res = Ok (first_snippet_text res))
  /\ (forall text, _extract_code_snippet (two_flows text) = Ok text).
Proof.
  split; [exact extract_code_snippet_ok|]. intros text. reflexivity.
Qed.

Lemma extract_code_snippet_first_snippet_witness :
  _extract_code_snippet textless_then_text = Ok (first_snippet_text textless_then_text).
Proof.
  apply (proj1 extract_code_snippet_first_snippet textless_then_text).
  reflexivity.
Defined.

(** ** Finding extraction *)

(** C3: a result that is the empty mapping yields the finding with rule_id
    Unknown Rule, message No message, level NOTE, path Unknown file, start
    and end line and column 0, no code and an empty list of tags. *)
Theorem empty_result_gives_defaults :
  build_finding (JObj []) = Ok default_finding
  /\ extract_findings (single_run [JObj []]) = Ok [default_finding].
Proof. split; reflexivity. Qed.

(** C1 (the code departs from the specification): on a result whose [locations] list
    is present and empty, building the finding does not substitute the
    default path; taking element 0 of the empty list raises [IndexError]. *)
Theorem empty_locations_raises :
  build_finding empty_locations_result = Raise IndexError.
Proof. reflexivity. Qed.

(** No result with an empty [locations] list builds a finding, whatever its
    other entries. *)
Lemma empty_locations_never_builds kvs f :
  dict_lookup kvs "locations" = Some (JArr []) ->
  build_finding (JObj kvs) <> Ok f.
Proof.
  intros Hl Hf. unfold build_finding in Hf.
  apply bind_Ok_inv in Hf as (v_rule_id & _ & Hf).
  apply bind_Ok_inv in Hf as (v_message & _ & Hf).
  apply bind_Ok_inv in Hf as (v_level & _ & Hf).
  apply bind_Ok_inv in Hf as (v_path & Hp & _).
  apply bind_Ok_inv in Hp as (physical & Hp & _).
  unfold physical_location in Hp. simpl in Hp. rewrite Hl in Hp.
  discriminate Hp.
Qed.

(** C2 (the code departs from the specification): an input whose single run holds
    one result, with an empty [locations] list, gives no list of one
    finding; the call raises [IndexError]. *)
Theorem extract_findings_one_result_raises :
  extract_findings (single_run [empty_locations_result]) = Raise IndexError.
Proof. reflexivity. Qed.

(** On every other input the count and the order are as specified. *)

Lemma append_finding_Ok acc r f :
  build_finding r = Ok f -> append_finding acc r = Ok (acc ++ [f])%list.
Proof. intros Hf. unfold append_finding. rewrite Hf. reflexivity. Qed.

Lemma for_each_append_finding items : forall fs acc,
  Forall2 (fun r f => build_finding r = Ok f) items fs ->
  for_each items append_finding acc = Ok (acc ++ fs)%list.
Proof.
  induction items as [|r items IH]; intros fs acc Hb.
  - apply Forall2_nil_inv_l in Hb as ->. simpl. by rewrite app_nil_r.
  - apply Forall2_cons_inv_l in Hb as (f & fs' & Hf & Hfs & ->).
    cbn [for_each]. rewrite (append_finding_Ok acc r f Hf), bind_Ok.
    rewrite (IH fs' (acc ++ [f])%list Hfs), <- app_assoc. reflexivity.
Qed.

Lemma extract_run_ok run fs acc :
  run_ok run = true ->
  Forall2 (fun r f => build_finding r = Ok f) (run_results run) fs ->
  extract_run acc run = Ok (acc ++ fs)%list.
Proof.
  intros Hok Hb. object_case run kvs.
  unfold extract_run, run_results, list_field in *. simpl in *.
  destruct (dict_lookup kvs "results") as [results|] eqn:Hr; simpl.
  - destruct results; try discriminate Hok. simpl.
    by apply for_each_append_finding.
  - apply Forall2_nil_inv_l in Hb as ->. by rewrite app_nil_r.
Qed.

Lemma for_each_extract_run runs : forall fs acc,
  forallb run_ok runs = true ->
  Forall2 (fun r f => build_finding r = Ok f) (all_results runs) fs ->
  for_each runs extract_run acc = Ok (acc ++ fs)%list.
Proof.
  induction runs as [|run runs IH]; intros fs acc Hok Hb.
  - apply Forall2_nil_inv_l in Hb as ->. simpl. by rewrite app_nil_r.
  - simpl in Hok. apply andb_true_iff in Hok as [Hrun Hruns].
    unfold all_results in Hb. simpl in Hb.
    apply Forall2_app_inv_l in Hb as (fs1 & fs2 & H1 & H2 & ->).
    cbn [for_each]. rewrite (extract_run_ok run fs1 acc Hrun H1), bind_Ok.
    rewrite (IH fs2 (acc ++ fs1)%list Hruns H2), <- app_assoc. reflexivity.
Qed.

(** Results of the documented shape always build a finding. *)

Lemma py_get_object_or_missing kvs k d :
  object_or_missing (dict_lookup kvs k) = true ->
  exists inner, py_get (JObj kvs) k (JObj d) = Ok (JObj inner).
Proof.
  simpl. destruct (dict_lookup kvs k) as [[]|]; try discriminate; simpl; eauto.
Qed.

Lemma physical_location_ok kvs :
  match dict_lookup kvs "locations" with
  | None => true
  | Some locations => first_location_ok locations
  end = true ->
  exists pkvs, physical_location (JObj kvs) = Ok (JObj pkvs)
               /\ physical_ok (JObj pkvs) = true.
Proof.
  unfold physical_location. simpl.
  destruct (dict_lookup kvs "locations") as [locations|]; simpl.
  - destruct locations as [| | | | |[|[| | | | |?|lkvs] ?]|?]; try discriminate.
    simpl. destruct (dict_lookup lkvs "physicalLocation") as [physical|]; simpl.
    + destruct physical; try discriminate. eauto.
    + eauto.
  - eauto.
Qed.

Lemma region_field_ok res pkvs k :
  physical_location res = Ok (JObj pkvs) ->
  physical_ok (JObj pkvs) = true ->
  exists v, region_field res k = Ok v.
Proof.
  intros Hp [_ Hr]%andb_true_iff. unfold region_field. rewrite Hp, bind_Ok.
  destruct (py_get_object_or_missing pkvs "region" [] Hr) as [region ->].
  simpl. eauto.
Qed.

Lemma build_finding_total res :
  result_ok res = true -> exists f, build_finding res = Ok f.
Proof.
  object_case res kvs. unfold result_ok.
  intros [[[Hm Hl]%andb_true_iff Hloc]%andb_true_iff Hcode]%andb_true_iff.
  destruct (physical_location_ok kvs Hloc) as (pkvs & Hp & Hpok).
  destruct (region_field_ok _ pkvs "startLine" Hp Hpok) as [sl Hsl].
  destruct (region_field_ok _ pkvs "startColumn" Hp Hpok) as [sc Hsc].
  destruct (region_field_ok _ pkvs "endLine" Hp Hpok) as [el Hel].
  destruct (region_field_ok _ pkvs "endColumn" Hp Hpok) as [ec Hec].
  unfold build_finding.
  rewrite Hsl, Hsc, Hel, Hec, Hp, (extract_code_snippet_ok _ Hcode).
  destruct (py_get_object_or_missing kvs "message" [] Hm) as [m ->].
  apply andb_true_iff in Hpok as [Ha _].
  destruct (py_get_object_or_missing pkvs "artifactLocation" [] Ha) as [a Hart].
  rewrite !bind_Ok, Hart. simpl.
  destruct (dict_lookup kvs "level") as [[]|]; try discriminate; simpl; eauto.
Qed.

Lemma Forall_build_finding_total rs :
  forallb result_ok rs = true ->
  exists fs, Forall2 (fun r f => build_finding r = Ok f) rs fs.
Proof.
  induction rs as [|r rs IH]; simpl; [eauto|].
  intros [Hr Hrs]%andb_true_iff.
  destruct (build_finding_total r Hr) as [f Hf], (IH Hrs) as [fs Hfs].
  exists (f :: fs). by constructor.
Qed.

Lemma dict_lookup_Some_truthy kvs k v :
  dict_lookup kvs k = Some v -> truthy (JObj kvs) = true.
Proof. destruct kvs; [discriminate|reflexivity]. Qed.

(** Whenever every result of the input builds a finding, the findings come
    out one per result, run by run and result by result. *)
Lemma extract_findings_run_major kvs runs fs :
  dict_lookup kvs "runs" = Some (JArr runs) ->
  forallb run_ok runs = true ->
  Forall2 (fun r f => build_finding r = Ok f) (all_results runs) fs ->
  extract_findings (JObj kvs) = Ok fs
  /\ length fs = length (all_results runs).
Proof.
  intros Hruns Hok Hb. split.
  - unfold extract_findings.
    rewrite (dict_lookup_Some_truthy _ _ _ Hruns). simpl. rewrite Hruns. simpl.
    by apply (for_each_extract_run runs fs []).
  - symmetry. eapply Forall2_length, Hb.
Qed.

(** On an input of the documented shape, with N results none of which has
    an empty [locations] list, [extract_findings] returns N findings. *)
Lemma extract_findings_documented_shape kvs runs :
  dict_lookup kvs "runs" = Some (JArr runs) ->
  forallb run_ok runs = true ->
  forallb result_ok (all_results runs) = true ->
  exists fs, extract_findings (JObj kvs) = Ok fs
             /\ length fs = length (all_results runs)
             /\ Forall2 (fun r f => build_finding r = Ok f) (all_results runs) fs.
Proof.
  intros Hruns Hok Hres.
  destruct (Forall_build_finding_total _ Hres) as [fs Hfs].
  destruct (extract_findings_run_major kvs runs fs Hruns Hok Hfs) as [He Hlen].
  eauto.
Qed.

Lemma extract_findings_no_runs kvs :
  dict_lookup kvs "runs" = None -> extract_findings (JObj kvs) = Ok [].
Proof.
  intros Hn. unfold extract_findings.
  destruct (truthy (JObj kvs)); [|reflexivity]. simpl. rewrite Hn. reflexivity.
Qed.

(** ** Files and templates *)

Lemma issubclass_Exception e : issubclass e Exception = true.
Proof. destruct e; reflexivity. Qed.

Lemma issubclass_FileNotFoundError e :
  issubclass e FileNotFoundError = bool_decide (e = FileNotFoundError).
Proof. destruct e; reflexivity. Qed.

(** C7 as stated fails: a file whose bytes are not UTF-8, so not valid
    JSON, makes the call raise [UnicodeDecodeError]; an integer literal of
    4301 digits, valid JSON, makes it raise [ValueError]; and when the file
    is missing but the diagnostic cannot be printed, the call raises what
    [print] raises. *)
Lemma parse_semgrep_output_raises :
  parse_semgrep_output (decoder := tiny_decoder) accepting undecodable "r.json"
    = Raise UnicodeDecodeError
  /\ parse_semgrep_output (decoder := digit_limit_decoder) accepting
       (single_file "r.json" (sevens 4301)) "r.json"
     = Raise ValueError
  /\ parse_semgrep_output (decoder := tiny_decoder) refusing
       (single_file "r.json" "{}") "s.json"
     = Raise UnicodeEncodeError.
Proof. repeat split; vm_compute; reflexivity. Qed.

Lemma issubclass_JSONDecodeError e :
  issubclass e JSONDecodeError = bool_decide (e = JSONDecodeError).
Proof. destruct e; reflexivity. Qed.

(** C7, amended: [parse_semgrep_output] prints a diagnostic and returns the
    empty mapping, rather than raising, when opening the file raises
    [FileNotFoundError] (the path does not exist) and when the decoder
    raises [JSONDecodeError] on the text of the file (the text is not valid
    JSON), provided the diagnostic is printed; when the file is read as text
    and the decoder returns a value, it returns that value.  Every other
    exception raised while opening, reading or decoding the file reaches the
    caller. *)
Theorem parse_semgrep_output_cases {decoder : JsonDecoder} (out : stdout)
    (fs : filesystem) json_file :
  (fs json_file = Raise FileNotFoundError ->
   out (error_reading_json FileNotFoundError) = None ->
   parse_semgrep_output out fs json_file = Ok (JObj []))
  /\ (forall text,
        fs json_file = Ok text -> json_loads text = Raise JSONDecodeError ->
        out (error_reading_json JSONDecodeError) = None ->
        parse_semgrep_output out fs json_file = Ok (JObj []))
  /\ (forall text data,
        fs json_file = Ok text -> json_loads text = Ok data ->
        parse_semgrep_output out fs json_file = Ok data)
  /\ (forall e,
        fs json_file = Raise e
        \/ (exists text, fs json_file = Ok text /\ json_loads text = Raise e) ->
        e <> FileNotFoundError -> e <> JSONDecodeError ->
        parse_semgrep_output out fs json_file = Raise e).
Proof.
  unfold parse_semgrep_output, print. repeat split.
  - intros -> Hout. simpl. rewrite Hout. reflexivity.
  - intros text -> Hd Hout. simpl. rewrite Hd. simpl. rewrite Hout. reflexivity.
  - intros text data -> Hd. simpl. rewrite Hd. reflexivity.
  - intros e Hfail Hf Hj.
    destruct Hfail as [->|(text & -> & Hd)]; simpl; rewrite ?Hd; simpl;
      rewrite issubclass_FileNotFoundError, issubclass_JSONDecodeError;
      rewrite !bool_decide_eq_false_2 by assumption; reflexivity.
Qed.

Lemma parse_semgrep_output_cases_witness :
  parse_semgrep_output (decoder := tiny_decoder) accepting
    (single_file "r.json" "[]") "s.json" = Ok (JObj [])
  /\ parse_semgrep_output (decoder := tiny_decoder) accepting
       (single_file "r.json" "{") "r.json" = Ok (JObj [])
  /\ parse_semgrep_output (decoder := tiny_decoder) accepting
       (single_file "r.json" "[]") "r.json" = Ok (JArr [])
  /\ parse_semgrep_output (decoder := tiny_decoder) accepting no_access "r.json"
     = Raise PermissionError.
Proof.
  pose proof (parse_semgrep_output_cases (decoder := tiny_decoder) accepting
                (single_file "r.json" "[]") "s.json") as (Hmissing & _).
  pose proof (parse_semgrep_output_cases (decoder := tiny_decoder) accepting
                (single_file "r.json" "{") "r.json") as (_ & Hinvalid & _).
  pose proof (parse_semgrep_output_cases (decoder := tiny_decoder) accepting
                (single_file "r.json" "[]") "r.json") as (_ & _ & Hvalid & _).
  pose proof (parse_semgrep_output_cases (decoder := tiny_decoder) accepting
                no_access "r.json") as (_ & _ & _ & Hother).
  split; [exact (Hmissing eq_refl eq_refl)|].
  split; [exact (Hinvalid "{" eq_refl eq_refl eq_refl)|].
  split; [exact (Hvalid "[]" (JArr []) eq_refl eq_refl)|].
  apply (Hother PermissionError); [left; reflexivity|discriminate..].
Defined.

(** C8 as stated fails: when rendering fails and the diagnostic cannot be
    printed, [generate_html] raises what [print] raises. *)
Lemma generate_html_print_raises :
  generate_html refusing (echo_generator "")
    (generate_report_data sample_now [] unknown unknown)
  = Raise UnicodeEncodeError.
Proof. reflexivity. Qed.

(** C8, amended: [generate_html] returns the rendered text when rendering
    the template succeeds.  On any rendering failure it prints a diagnostic
    and returns the document that wraps the text of the error in
    [<html><body><h1>Error generating report</h1><p>] and
    [</p></body></html>], provided the diagnostic is printed.  On a standard
    output that prints the diagnostic the result is a string for every
    report data. *)
Theorem generate_html_outcomes {engine : Jinja2} (out : stdout)
    (self : SemgrepReportGenerator) report_data :
  (forall html,
     render (self_template self) report_data = Rendered html ->
     generate_html out self report_data = Ok html)
  /\ (forall e description,
        render (self_template self) report_data = RenderFailed e description ->
        out (error_generating_html description) = None ->
        generate_html out self report_data
        = Ok ("<html><body><h1>Error generating report</h1><p>" ++ description
              ++ "</p></body></html>"))
  /\ ((forall m, out m = None) ->
      exists html, generate_html out self report_data = Ok html).
Proof.
  unfold generate_html, print. repeat split.
  - intros html ->. reflexivity.
  - intros e description -> Hout. rewrite issubclass_Exception, Hout. reflexivity.
  - intros Hout. destruct (render _ _) as [html|e description]; [eauto|].
    rewrite issubclass_Exception, Hout. simpl. eauto.
Qed.

Lemma generate_html_outcomes_witness :
  generate_html accepting (echo_generator "")
    (generate_report_data sample_now [] unknown unknown)
  = Ok "<html><body><h1>Error generating report</h1><p>empty template</p></body></html>"
  /\ generate_html accepting (echo_generator "n=")
       (generate_report_data sample_now [] unknown unknown)
     = Ok "n=0".
Proof.
  split.
  - apply (proj1 (proj2 (generate_html_outcomes accepting (echo_generator "")
        (generate_report_data sample_now [] unknown unknown)))
             TemplateError "empty template"); reflexivity.
  - apply (proj1 (generate_html_outcomes accepting (echo_generator "n=")
        (generate_report_data sample_now [] unknown unknown))).
    reflexivity.
Defined.




(** * Further properties of the code *)

(** ** Loops *)

Lemma for_each_app {S} (body : S -> json -> result S) xs ys s :
  for_each (xs ++ ys) body s = for_each xs body s ≫= for_each ys body.
Proof.
  revert s. induction xs as [|x xs IH]; intros s; [reflexivity|].
  cbn [for_each app]. destruct (body s x) as [s'|e]; [|reflexivity].
  rewrite !bind_Ok. apply IH.
Qed.

Lemma extract_run_flat run acc :
  run_ok run = true ->
  extract_run acc run = for_each (run_results run) append_finding acc.
Proof.
  intros Hok. object_case run kvs.
  unfold extract_run, run_results, list_field. simpl in *.
  destruct (dict_lookup kvs "results") as [results|]; simpl; [|reflexivity].
  destruct results; try discriminate Hok. reflexivity.
Qed.

(** The two nested loops of [extract_findings] are one loop over the
    results of all runs. *)
Lemma for_each_runs_flat runs : forall acc,
  forallb run_ok runs = true ->
  for_each runs extract_run acc = for_each (all_results runs) append_finding acc.
Proof.
  induction runs as [|run runs IH]; intros acc Hok; [reflexivity|].
  simpl in Hok. apply andb_true_iff in Hok as [Hrun Hruns].
  unfold all_results. cbn [map concat for_each]. rewrite for_each_app.
  rewrite (extract_run_flat run acc Hrun).
  destruct (for_each (run_results run) append_finding acc) as [acc'|e];
    [|reflexivity].
  rewrite !bind_Ok. apply IH, Hruns.
Qed.

Lemma extract_findings_flat kvs runs :
  dict_lookup kvs "runs" = Some (JArr runs) ->
  forallb run_ok runs = true ->
  extract_findings (JObj kvs) = for_each (all_results runs) append_finding [].
Proof.
  intros Hruns Hok. unfold extract_findings.
  rewrite (dict_lookup_Some_truthy _ _ _ Hruns). simpl. rewrite Hruns. simpl.
  by apply for_each_runs_flat.
Qed.

Lemma for_each_append_finding_inv items : forall acc out,
  for_each items append_finding acc = Ok out ->
  exists fs, out = (acc ++ fs)%list
             /\ Forall2 (fun r f => build_finding r = Ok f) items fs.
Proof.
  induction items as [|r items IH]; intros acc out Hout.
  - injection Hout as <-. exists []. by rewrite app_nil_r.
  - cbn [for_each] in Hout. apply bind_Ok_inv in Hout as (acc' & Hr & Hout).
    unfold append_finding in Hr. apply bind_Ok_inv in Hr as (f & Hf & Hr).
    injection Hr as <-. apply IH in Hout as (fs & -> & Hfs).
    exists (f :: fs). rewrite <- app_assoc. split; [reflexivity|by constructor].
Qed.

Lemma append_finding_Raise acc r e :
  build_finding r = Raise e -> append_finding acc r = Raise e.
Proof. intros Hr. unfold append_finding. rewrite Hr. reflexivity. Qed.

Lemma for_each_append_finding_raise items : forall acc r rest fs e,
  Forall2 (fun r f => build_finding r = Ok f) items fs ->
  build_finding r = Raise e ->
  for_each (items ++ r :: rest) append_finding acc = Raise e.
Proof.
  intros acc r rest fs e Hfs Hr.
  rewrite for_each_app, (for_each_append_finding items fs acc Hfs), bind_Ok.
  cbn [for_each]. rewrite (append_finding_Raise _ _ _ Hr). reflexivity.
Qed.

(** ** Extraction by paths *)

Lemma option_bind_Some {A} (o : option A) : o ≫= (fun x => Some x) = o.
Proof. destruct o; reflexivity. Qed.

Lemma build_finding_paths_ok res :
  result_ok res = true -> build_finding res = Ok (finding_by_paths res).
Proof.
  object_case res kvs. unfold result_ok.
  intros [[[Hm Hl]%andb_true_iff Hloc]%andb_true_iff Hcode]%andb_true_iff.
  unfold build_finding, region_field, physical_location.
  rewrite (extract_code_snippet_ok _ Hcode).
  unfold finding_by_paths, get_or_default, region_path, first_location, level_text.
  simpl.
  destruct (dict_lookup kvs "message") as [[]|]; try discriminate Hm; simpl;
  (destruct (dict_lookup kvs "level") as [[]|]; try discriminate Hl; simpl);
  (destruct (dict_lookup kvs "locations") as [locations|]; simpl;
   [|rewrite ?option_bind_Some; reflexivity]);
  (destruct locations as [| | | | |[|[| | | | |?|lkvs] ?]|?];
     try discriminate Hloc; simpl in Hloc |- *);
  (destruct (dict_lookup lkvs "physicalLocation") as [physical|]; simpl;
   [|rewrite ?option_bind_Some; reflexivity]);
  (destruct physical as [| | | | |?|pkvs]; try discriminate Hloc; simpl in Hloc |- *);
  apply andb_true_iff in Hloc as [Ha Hr];
  (destruct (dict_lookup pkvs "artifactLocation") as [[]|];
     try discriminate Ha; simpl);
  (destruct (dict_lookup pkvs "region") as [[]|]; try discriminate Hr; simpl);
  rewrite ?option_bind_Some; reflexivity.
Qed.

Lemma Forall2_finding_by_paths rs :
  forallb result_ok rs = true ->
  Forall2 (fun r f => build_finding r = Ok f) rs (map finding_by_paths rs).
Proof.
  induction rs as [|r rs IH]; simpl; [constructor|].
  intros [Hr Hrs]%andb_true_iff. constructor; [|by apply IH].
  by apply build_finding_paths_ok.
Qed.

(** X1: on an input whose runs are objects with lists of results, each
    result of the documented shape, with a level in ASCII (where the case
    maps of the model are those of Python) and none with an empty list of
    locations, [extract_findings] returns, result by result in
    input order, the finding read off by get-or-default walks along the
    paths of keys. *)
Theorem extract_findings_by_paths kvs runs :
  dict_lookup kvs "runs" = Some (JArr runs) ->
  forallb run_ok runs = true ->
  forallb result_ok (all_results runs) = true ->
  forallb (fun r => is_ascii (level_text r)) (all_results runs) = true ->
  extract_findings (JObj kvs) = Ok (map finding_by_paths (all_results runs)).
Proof.
  intros Hruns Hok Hres _.
  apply (extract_findings_run_major kvs runs _ Hruns Hok).
  by apply Forall2_finding_by_paths.
Qed.

Lemma extract_findings_by_paths_witness :
  extract_findings
    (JObj [("version", JStr "2.1.0");
           ("runs", JArr [JObj [("results", JArr [JObj []])];
                          JObj [("tool", JObj [])];
                          JObj [("results",
                                 JArr [two_locations (location_at 9)])]])])
  = Ok [default_finding;
        {| rule_id := JStr "r"; message := JStr "No message"; level := "NOTE";
           path := JStr "Unknown file";
           start := {| line := JInt 3; column := JInt 0 |};
           end_ := {| line := JInt 0; column := JInt 0 |};
           code := JNull; tags := JArr [] |}].
Proof.
  apply (extract_findings_by_paths
           [("version", JStr "2.1.0");
            ("runs", JArr [JObj [("results", JArr [JObj []])];
                           JObj [("tool", JObj [])];
                           JObj [("results",
                                  JArr [two_locations (location_at 9)])]])]
           [JObj [("results", JArr [JObj []])];
            JObj [("tool", JObj [])];
            JObj [("results", JArr [two_locations (location_at 9)])]]);
    reflexivity.
Defined.

(** X2: only the first entry of [locations] is read: two results that
    differ in nothing but the locations after the first build the same
    finding, or fail alike. *)
Theorem later_locations_ignored kvs1 kvs2 l rest1 rest2 :
  (forall k, k <> "locations" -> dict_lookup kvs1 k = dict_lookup kvs2 k) ->
  dict_lookup kvs1 "locations" = Some (JArr (l :: rest1)) ->
  dict_lookup kvs2 "locations" = Some (JArr (l :: rest2)) ->
  build_finding (JObj kvs1) = build_finding (JObj kvs2).
Proof.
  intros Hag H1 H2.
  unfold build_finding, region_field, physical_location, _extract_code_snippet.
  simpl.
  rewrite (Hag "ruleId"), (Hag "message"), (Hag "level"), (Hag "codeFlows"),
    (Hag "tags") by discriminate.
  rewrite H1, H2. reflexivity.
Qed.

Lemma later_locations_ignored_witness :
  build_finding (two_locations (location_at 9))
  = build_finding (two_locations (JStr "not a location")).
Proof.
  apply (later_locations_ignored _ _ (location_at 3)
           [location_at 9] [JStr "not a location"]); [|reflexivity..].
  intros k Hk. unfold dict_lookup. cbn -[String.eqb].
  destruct (String.eqb "ruleId" k); [reflexivity|].
  destruct (String.eqb_spec "locations" k) as [<-|_]; [by destruct Hk|reflexivity].
Defined.

(** ** Levels *)

Lemma ascii_upper_idem c : ascii_upper (ascii_upper c) = ascii_upper c.
Proof. destruct c as [[] [] [] [] [] [] [] []]; reflexivity. Qed.

Lemma ascii_lower_upper c : ascii_lower (ascii_upper c) = ascii_lower c.
Proof. destruct c as [[] [] [] [] [] [] [] []]; reflexivity. Qed.

Lemma str_upper_idem s : str_upper (str_upper s) = str_upper s.
Proof. induction s as [|c s IH]; simpl; [|rewrite ascii_upper_idem, IH]; reflexivity. Qed.

Lemma str_lower_upper s : str_lower (str_upper s) = str_lower s.
Proof. induction s as [|c s IH]; simpl; [|rewrite ascii_lower_upper, IH]; reflexivity. Qed.

Lemma build_finding_level r f :
  build_finding r = Ok f -> level f = str_upper (level_text r).
Proof.
  intros Hf. unfold build_finding in Hf.
  apply bind_Ok_inv in Hf as (v_rule_id & Hr & Hf).
  object_case r kvs. clear Hr.
  apply bind_Ok_inv in Hf as (v_message & _ & Hf).
  apply bind_Ok_inv in Hf as (v_level & Hl & Hf).
  repeat (apply bind_Ok_inv in Hf as (? & _ & Hf)).
  injection Hf as <-. simpl.
  unfold level_text. simpl in Hl |- *.
  destruct (dict_lookup kvs "level") as [[]|]; simpl in Hl; try discriminate Hl;
    by injection Hl as <-.
Qed.

Lemma for_each_invariant {S} (I : S -> Prop) (body : S -> json -> result S) xs :
  (forall s x s', I s -> body s x = Ok s' -> I s') ->
  forall s out, I s -> for_each xs body s = Ok out -> I out.
Proof.
  intros Hbody. induction xs as [|x xs IH]; intros s out Hs Hout.
  - by injection Hout as <-.
  - cbn [for_each] in Hout. apply bind_Ok_inv in Hout as (s' & Hx & Hout).
    eapply IH; [|exact Hout]. eapply Hbody; eauto.
Qed.

Lemma append_finding_built acc r acc' :
  Forall (fun f => exists r, build_finding r = Ok f) acc ->
  append_finding acc r = Ok acc' ->
  Forall (fun f => exists r, build_finding r = Ok f) acc'.
Proof.
  intros Hacc Hr. unfold append_finding in Hr.
  apply bind_Ok_inv in Hr as (f & Hf & Hr). injection Hr as <-.
  apply Forall_app. split; [exact Hacc|]. repeat constructor. eauto.
Qed.

Lemma extract_run_built acc run acc' :
  Forall (fun f => exists r, build_finding r = Ok f) acc ->
  extract_run acc run = Ok acc' ->
  Forall (fun f => exists r, build_finding r = Ok f) acc'.
Proof.
  intros Hacc Hr. unfold extract_run in Hr.
  apply bind_Ok_inv in Hr as ([] & _ & Hr).
  - apply bind_Ok_inv in Hr as (results & _ & Hr).
    apply bind_Ok_inv in Hr as (items & _ & Hr).
    eapply for_each_invariant; [|exact Hacc|exact Hr].
    exact append_finding_built.
  - by injection Hr as <-.
Qed.

Lemma extract_findings_built data fs :
  extract_findings data = Ok fs ->
  Forall (fun f => exists r, build_finding r = Ok f) fs.
Proof.
  unfold extract_findings. intros Hfs.
  destruct (negb (truthy data)); [by injection Hfs as <-|].
  apply bind_Ok_inv in Hfs as ([] & _ & Hfs); simpl in Hfs;
    [|by injection Hfs as <-].
  apply bind_Ok_inv in Hfs as (runs & _ & Hfs).
  apply bind_Ok_inv in Hfs as (items & _ & Hfs).
  eapply for_each_invariant; [|constructor|exact Hfs].
  exact extract_run_built.
Qed.

(** X3: whatever the input, the level of every finding that
    [extract_findings] returns is in upper case: [upper] leaves it
    unchanged. *)
Theorem extracted_levels_upper data fs :
  extract_findings data = Ok fs ->
  Forall (fun f => str_upper (level f) = level f) fs.
Proof.
  intros Hfs. eapply Forall_impl; [exact (extract_findings_built data fs Hfs)|].
  intros f [r Hr]. rewrite (build_finding_level r f Hr). apply str_upper_idem.
Qed.

Lemma extracted_levels_upper_witness :
  Forall (fun f => str_upper (level f) = level f)
         [finding_by_paths (JObj [("level", JStr "Warning")])].
Proof.
  apply (extracted_levels_upper
           (single_run [JObj [("level", JStr "Warning")]])).
  reflexivity.
Defined.

(** X4: a result without a [level] entry becomes a finding of level NOTE,
    which is listed and counted in the total but moves none of the four
    severity counters. *)
Theorem missing_level_not_counted kvs f fs :
  dict_lookup kvs "level" = None ->
  build_finding (JObj kvs) = Ok f ->
  level f = "NOTE"
  /\ count_severities (fs ++ [f]) = count_severities fs
  /\ forall now url sha,
       total_findings (generate_report_data now (fs ++ [f]) url sha)
       = S (total_findings (generate_report_data now fs url sha)).
Proof.
  intros Hl Hf. apply build_finding_level in Hf.
  unfold level_text in Hf. simpl in Hf. rewrite Hl in Hf. simpl in Hf.
  split; [exact Hf|]. split.
  - unfold count_severities at 1. rewrite foldl_app. simpl.
    apply count_finding_unbucketed. unfold unbucketed. rewrite Hf.
    vm_compute. intros H.
    repeat (apply elem_of_cons in H as [H|H]; [discriminate H|]).
    by apply elem_of_nil in H.
  - intros now url sha. simpl. rewrite length_app. simpl. lia.
Qed.

Lemma missing_level_not_counted_witness :
  level default_finding = "NOTE"
  /\ count_severities ([finding_of_level "HIGH"] ++ [default_finding])
     = count_severities [finding_of_level "HIGH"]
  /\ forall now url sha,
       total_findings
         (generate_report_data now ([finding_of_level "HIGH"] ++ [default_finding])
            url sha)
       = S (total_findings
              (generate_report_data now [finding_of_level "HIGH"] url sha)).
Proof.
  apply (missing_level_not_counted [] default_finding [finding_of_level "HIGH"]);
    reflexivity.
Defined.

Lemma count_level_built b rs fs :
  Forall2 (fun r f => build_finding r = Ok f) rs fs ->
  count_level b fs = count_result_level b rs.
Proof.
  induction 1 as [|r f rs fs Hf _ IH]; [reflexivity|].
  rewrite count_level_cons, IH. unfold count_result_level.
  rewrite filter_cons, (build_finding_level r f Hf), str_lower_upper.
  destruct (decide (str_lower (level_text r) = b)); reflexivity.
Qed.

(** X5: extraction followed by aggregation counts the input results by
    level without regard to case: when the runs are objects with lists of
    results whose levels are in ASCII (where the case maps of the model are
    those of Python) and extraction returns, the total is
    the number of results and each severity counter is the number of results
    whose [level] entry, lower-cased, is the name of the bucket. *)
Theorem report_counts_follow_input now kvs runs fs url sha :
  dict_lookup kvs "runs" = Some (JArr runs) ->
  forallb run_ok runs = true ->
  forallb (fun r => is_ascii (level_text r)) (all_results runs) = true ->
  extract_findings (JObj kvs) = Ok fs ->
  let r := generate_report_data now fs url sha in
  let rs := all_results runs in
  total_findings r = length rs
  /\ high_severity_count r = count_result_level "high" rs
  /\ medium_severity_count r = count_result_level "medium" rs
  /\ low_severity_count r = count_result_level "low" rs
  /\ info_severity_count r = count_result_level "info" rs.
Proof.
  intros Hruns Hok _ Hfs r rs. subst r rs.
  rewrite (extract_findings_flat kvs runs Hruns Hok) in Hfs.
  apply for_each_append_finding_inv in Hfs as (fs' & -> & Hb). simpl app.
  simpl. rewrite !count_severities_bucket by (unfold bucket_names; set_solver).
  rewrite !(count_level_built _ _ _ Hb).
  split; [symmetry; eapply Forall2_length, Hb|]. repeat split.
Qed.

Lemma report_counts_follow_input_witness :
  let r := generate_report_data sample_now
             (map finding_by_paths
                [JObj [("level", JStr "High")]; JObj [("level", JStr "info")]])
             unknown unknown in
  let rs := [JObj [("level", JStr "High")]; JObj [("level", JStr "info")]] in
  total_findings r = length rs
  /\ high_severity_count r = count_result_level "high" rs
  /\ medium_severity_count r = count_result_level "medium" rs
  /\ low_severity_count r = count_result_level "low" rs
  /\ info_severity_count r = count_result_level "info" rs.
Proof.
  apply (report_counts_follow_input sample_now
           [("runs", JArr [JObj [("results", JArr [JObj [("level", JStr "High")]])];
                           JObj [("results", JArr [JObj [("level", JStr "info")]])]])]
           [JObj [("results", JArr [JObj [("level", JStr "High")]])];
            JObj [("results", JArr [JObj [("level", JStr "info")]])]]);
    reflexivity.
Defined.

(** ** Failures during extraction *)

(** X6: extraction is all or nothing.  When the runs are objects with lists
    of results, the first result on which building a finding raises ends the
    call with that exception; the findings built before it are not
    returned. *)
Theorem extract_findings_first_failure kvs runs before r after fs e :
  dict_lookup kvs "runs" = Some (JArr runs) ->
  forallb run_ok runs = true ->
  all_results runs = (before ++ r :: after)%list ->
  Forall2 (fun r f => build_finding r = Ok f) before fs ->
  build_finding r = Raise e ->
  extract_findings (JObj kvs) = Raise e.
Proof.
  intros Hruns Hok Hsplit Hbefore Hr.
  rewrite (extract_findings_flat kvs runs Hruns Hok), Hsplit.
  by apply (for_each_append_finding_raise before [] r after fs e).
Qed.

Lemma extract_findings_first_failure_witness :
  extract_findings
    (JObj [("runs", JArr [JObj [("results", JArr [JObj []])];
                          JObj [("results",
                                 JArr [JObj [("level", JInt 3)]; JObj []])]])])
  = Raise AttributeError.
Proof.
  apply (extract_findings_first_failure
           [("runs", JArr [JObj [("results", JArr [JObj []])];
                           JObj [("results",
                                  JArr [JObj [("level", JInt 3)]; JObj []])]])]
           [JObj [("results", JArr [JObj []])];
            JObj [("results", JArr [JObj [("level", JInt 3)]; JObj []])]]
           [JObj []] (JObj [("level", JInt 3)]) [JObj []] [default_finding]);
    try reflexivity.
  repeat constructor.
Defined.

(** X7: an input that is not a mapping never yields findings: the call
    returns the empty list (for a falsy value, and for a list or string that
    does not contain [runs]) or raises [TypeError]. *)
Theorem extract_findings_not_a_mapping data :
  (forall kvs, data <> JObj kvs) ->
  extract_findings data = Ok [] \/ extract_findings data = Raise TypeError.
Proof.
  intros Hno. unfold extract_findings.
  destruct data as [|[]|n|f|s|xs|kvs]; simpl; auto.
  - destruct (negb (n =? 0)%Z); simpl; auto.
  - destruct f; simpl; auto.
  - destruct (negb (String.eqb s "")); simpl; auto.
    destruct (is_substring "runs" s); simpl; auto.
  - destruct (negb (bool_decide (xs = []))); simpl; auto.
    destruct (existsb (is_str "runs") xs); simpl; auto.
  - by destruct (Hno kvs).
Qed.

Lemma extract_findings_not_a_mapping_witness :
  (extract_findings (JArr [JStr "runs"]) = Ok []
   \/ extract_findings (JArr [JStr "runs"]) = Raise TypeError)
  /\ (extract_findings (JStr "no such key") = Ok []
      \/ extract_findings (JStr "no such key") = Raise TypeError).
Proof.
  split; apply extract_findings_not_a_mapping; discriminate.
Defined.

(** ** The search for a snippet *)






(** ** Counters *)

Lemma filter_unbucketed_nil fs :
  filter unbucketed fs = [] <->
  Forall (fun f => str_lower (level f) ∈ bucket_names) fs.
Proof.
  induction fs as [|f fs IH]; [split; constructor|].
  rewrite filter_cons. destruct (decide (unbucketed f)) as [Hu|Hb].
  - split; [discriminate|]. intros Hall. apply Forall_cons in Hall as [Hin _].
    by destruct Hu.
  - rewrite IH. apply dec_stable in Hb. split.
    + intros Hall. by constructor.
    + intros Hall. by apply Forall_cons in Hall as [_ Hall].
Qed.

(** X9: the four severity counters add up to [total_findings] exactly when
    the lower-cased level of every finding is one of high, medium, low and
    info. *)
Theorem counters_sum_total_iff now fs url sha :
  let r := generate_report_data now fs url sha in
  (high_severity_count r + medium_severity_count r
   + low_severity_count r + info_severity_count r)%nat = total_findings r
  <-> Forall (fun f => str_lower (level f) ∈ bucket_names) fs.
Proof.
  intros r.
  assert ((high_severity_count r + medium_severity_count r
           + low_severity_count r + info_severity_count r)%nat = bucket_sum fs)
    as -> by apply report_counter_sum.
  subst r. simpl. rewrite <- filter_unbucketed_nil.
  pose proof (bucket_sum_partition fs) as Hp. split.
  - intros Heq. apply length_zero_iff_nil. lia.
  - intros Hnil. rewrite Hnil in Hp. simpl in Hp. lia.
Qed.

Lemma count_level_app b fs1 fs2 :
  count_level b (fs1 ++ fs2) = (count_level b fs1 + count_level b fs2)%nat.
Proof. unfold count_level. by rewrite filter_app, length_app. Qed.

Lemma count_level_Permutation b fs1 fs2 :
  fs1 ≡ₚ fs2 -> count_level b fs1 = count_level b fs2.
Proof. intros Hp. unfold count_level. by rewrite Hp. Qed.

Lemma severity_counters_count now fs url sha :
  severity_counters (generate_report_data now fs url sha)
  = (count_level "high" fs, count_level "medium" fs,
     count_level "low" fs, count_level "info" fs).
Proof.
  unfold severity_counters. simpl.
  rewrite !count_severities_bucket by (unfold bucket_names; set_solver).
  reflexivity.
Qed.

(** X10: the counters do not depend on the order of the findings, nor on
    the repository URL, the commit and the clock: two sequences that are
    permutations of each other give the same four counters and the same
    total. *)
Theorem counters_order_independent now1 now2 fs1 fs2 url1 url2 sha1 sha2 :
  fs1 ≡ₚ fs2 ->
  severity_counters (generate_report_data now1 fs1 url1 sha1)
  = severity_counters (generate_report_data now2 fs2 url2 sha2)
  /\ total_findings (generate_report_data now1 fs1 url1 sha1)
     = total_findings (generate_report_data now2 fs2 url2 sha2).
Proof.
  intros Hp. rewrite !severity_counters_count. simpl.
  rewrite !(count_level_Permutation _ fs1 fs2 Hp), (Permutation_length Hp).
  split; reflexivity.
Qed.

Lemma counters_order_independent_witness :
  severity_counters
    (generate_report_data sample_now
       [finding_of_level "LOW"; finding_of_level "HIGH"] unknown unknown)
  = severity_counters
      (generate_report_data sample_now
         [finding_of_level "HIGH"; finding_of_level "LOW"] "url" "sha")
  /\ total_findings
       (generate_report_data sample_now
          [finding_of_level "LOW"; finding_of_level "HIGH"] unknown unknown)
     = total_findings
         (generate_report_data sample_now
            [finding_of_level "HIGH"; finding_of_level "LOW"] "url" "sha").
Proof.
  apply (counters_order_independent sample_now sample_now
           [finding_of_level "LOW"; finding_of_level "HIGH"]
           [finding_of_level "HIGH"; finding_of_level "LOW"]).
  apply perm_swap.
Defined.

(** X11: the counters of two batches of findings add up: aggregating a
    concatenation gives, counter by counter and for the total, the sum of
    what each part gives. *)
Theorem counters_additive now fs1 fs2 url sha :
  let r := generate_report_data now (fs1 ++ fs2) url sha in
  let r1 := generate_report_data now fs1 url sha in
  let r2 := generate_report_data now fs2 url sha in
  high_severity_count r = (high_severity_count r1 + high_severity_count r2)%nat
  /\ medium_severity_count r
     = (medium_severity_count r1 + medium_severity_count r2)%nat
  /\ low_severity_count r = (low_severity_count r1 + low_severity_count r2)%nat
  /\ info_severity_count r = (info_severity_count r1 + info_severity_count r2)%nat
  /\ total_findings r = (total_findings r1 + total_findings r2)%nat.
Proof.
  simpl. rewrite !count_severities_bucket by (unfold bucket_names; set_solver).
  rewrite !count_level_app, length_app. repeat split.
Qed.

(** ** Files, templates and the entry point *)

(** X12: [parse_semgrep_output] turns only a missing file and a decoding
    failure into the empty mapping.  Any other failure to open or read the
    file, such as a refused permission or bytes that are not UTF-8, is raised
    to the caller. *)
Theorem parse_semgrep_output_propagates {decoder : JsonDecoder}
    (out : stdout) (fs : filesystem) json_file e :
  fs json_file = Raise e ->
  e <> FileNotFoundError -> e <> JSONDecodeError ->
  parse_semgrep_output out fs json_file = Raise e.
Proof.
  intros Hfs Hf Hj. unfold parse_semgrep_output. rewrite Hfs. simpl.
  rewrite issubclass_FileNotFoundError, issubclass_JSONDecodeError.
  rewrite !bool_decide_eq_false_2 by assumption. reflexivity.
Qed.

Lemma parse_semgrep_output_propagates_witness :
  parse_semgrep_output (decoder := tiny_decoder) accepting no_access "in.json"
  = Raise PermissionError.
Proof.
  apply (parse_semgrep_output_propagates (decoder := tiny_decoder) accepting);
    [reflexivity|discriminate..].
Defined.

(** X13: a template file that can be read is used as it is.  When its text
    compiles, that template is loaded; when compiling raises anything but
    [FileNotFoundError], the exception reaches the caller and the built-in
    template is not substituted. *)
Theorem load_template_from_file {engine : Jinja2} (fs : filesystem)
    template_path text :
  fs template_path = Ok text ->
  (forall t, Template text = Ok t -> _load_template fs template_path = Ok t)
  /\ (forall e, Template text = Raise e -> e <> FileNotFoundError ->
        _load_template fs template_path = Raise e
        /\ __init__ fs template_path = Raise e).
Proof.
  intros Hfs. unfold __init__, _load_template. rewrite Hfs. simpl. split.
  - intros t ->. reflexivity.
  - intros e -> Hne. simpl.
    rewrite orb_false_r, issubclass_FileNotFoundError.
    rewrite bool_decide_eq_false_2 by exact Hne. split; reflexivity.
Qed.

Lemma load_template_from_file_witness :
  _load_template (engine := strict_engine)
    (single_file default_template_path "<p>{{ total_findings }}</p>")
    default_template_path
  = Ok "<p>{{ total_findings }}</p>"
  /\ _load_template (engine := strict_engine)
       (single_file default_template_path "") default_template_path
     = Raise TemplateError.
Proof.
  split.
  - apply (proj1 (load_template_from_file (engine := strict_engine)
                    (single_file default_template_path "<p>{{ total_findings }}</p>")
                    default_template_path "<p>{{ total_findings }}</p>" eq_refl)).
    reflexivity.
  - apply (proj2 (load_template_from_file (engine := strict_engine)
                    (single_file default_template_path "")
                    default_template_path "" eq_refl) TemplateError);
      [reflexivity|discriminate].
Defined.





Lemma save_report_events env html output_file :
  exists status : bool,
    save_report env html output_file
    = (Ok status,
       [if status then Written output_file html
        else WriteFailed output_file
               (default Exception (os_write env output_file html))])
    /\ (status = true <-> os_write env output_file html = None).
Proof.
  unfold save_report. destruct (os_write env output_file html) as [e|].
  - exists false. rewrite issubclass_Exception. simpl.
    split; [reflexivity|]. split; discriminate.
  - exists true. split; [reflexivity|]. split; reflexivity.
Qed.

Lemma parse_semgrep_output_truthy {decoder : JsonDecoder} (fs : filesystem)
    json_file data :
  parse_semgrep_output accepting fs json_file = Ok data ->
  truthy data = true ->
  exists text, fs json_file = Ok text /\ json_loads text = Ok data.
Proof.
  unfold parse_semgrep_output. intros Hparse Htruthy.
  destruct (fs json_file) as [text|e]; simpl in Hparse.
  - exists text. split; [reflexivity|].
    destruct (json_loads text) as [data'|e]; simpl in Hparse;
      [congruence|].
    destruct (_ || _); [|discriminate]. injection Hparse as <-. discriminate.
  - destruct (_ || _); [|discriminate]. injection Hparse as <-. discriminate.
Qed.

(** X16: what [main] writes is the report of the input.  Whenever a run
    writes a text to a path, the path is the third argument, the input file
    was read and decoded to a value from which extraction returned [fs], and
    the text is the rendering of the report of [fs], with the repository URL
    and the commit taken from the fourth and fifth arguments and Unknown in
    their absence, or the error document when rendering failed. *)
Theorem main_written_content {decoder : JsonDecoder} {engine : Jinja2}
    argv env path content :
  In (Written path content) (snd (main argv env)) ->
  exists prog json_file rest generator text data fs,
    argv = prog :: json_file :: path :: rest
    /\ __init__ (os_read env) default_template_path = Ok generator
    /\ os_read env json_file = Ok text
    /\ json_loads text = Ok data
    /\ extract_findings data = Ok fs
    /\ content
       = match render (self_template generator)
                 (generate_report_data (os_now env) fs
                    (nth 0 rest "Unknown") (nth 1 rest "Unknown")) with
         | Rendered html => html
         | RenderFailed _ description =>
             "<html><body><h1>Error generating report</h1><p>" ++ description
             ++ "</p></body></html>"
         end.
Proof.
  destruct argv as [|prog [|json_file [|output_html rest]]]; try (by intros []).
  unfold main.
  destruct (negb (os_exists env json_file)); [by intros []|].
  destruct (__init__ _ _) as [generator|] eqn:Hinit; [|by intros []].
  destruct (parse_semgrep_output _ _ _) as [data|] eqn:Hparse; [|by intros []].
  destruct (truthy data) eqn:Htruthy; [|by intros []]. cbn [negb].
  destruct (extract_findings data) as [fs|] eqn:Hfs; [|by intros []].
  cbv zeta.
  replace (match rest with [] => "Unknown" | url :: _ => url end)
    with (nth 0 rest "Unknown") by (by destruct rest).
  replace (match rest with _ :: sha :: _ => sha | _ => "Unknown" end)
    with (nth 1 rest "Unknown") by (by destruct rest as [|? []]).
  destruct (generate_html _ _ _) as [html|] eqn:Hhtml; [|by intros []].
  destruct (save_report_events env html output_html) as ([] & -> & _);
    simpl; intros [Hev|[]]; [|discriminate Hev].
  injection Hev as <- <-.
  destruct (parse_semgrep_output_truthy _ _ _ Hparse Htruthy) as (text & Hr & Hd).
  exists prog, json_file, rest, generator, text, data, fs.
  repeat (split; [done|]).
  unfold generate_html, print, accepting in Hhtml.
  destruct (render _ _) as [html'|e description]; [congruence|].
  rewrite issubclass_Exception in Hhtml. simpl in Hhtml.
  injection Hhtml as <-. reflexivity.
Qed.

Lemma main_written_content_witness :
  exists prog json_file rest generator text data fs,
    ["report.py"; "in.json"; "out.html"; "https://example.org/repo.git"]
    = prog :: json_file :: "out.html" :: rest
    /\ __init__ (engine := echo_engine) (os_read (sample_os "one" None))
         default_template_path = Ok generator
    /\ os_read (sample_os "one" None) json_file = Ok text
    /\ json_loads (JsonDecoder := sample_decoder) text = Ok data
    /\ extract_findings data = Ok fs
    /\ (fallback_html ++ "1")
       = match render (self_template generator)
                 (generate_report_data (os_now (sample_os "one" None)) fs
                    (nth 0 rest "Unknown") (nth 1 rest "Unknown")) with
         | Rendered html => html
         | RenderFailed _ description =>
             "<html><body><h1>Error generating report</h1><p>" ++ description
             ++ "</p></body></html>"
         end.
Proof.
  apply (main_written_content (decoder := sample_decoder) (engine := echo_engine)
           ["report.py"; "in.json"; "out.html"; "https://example.org/repo.git"]
           (sample_os "one" None) "out.html" (fallback_html ++ "1")).
  left. reflexivity.
Defined.

(** X17: exit status 0 is a promise about the output.  When [main] ends
    with status 0, the input existed, and exactly one write took place: some
    text was written, with success, to the path given as third argument. *)
Theorem main_exit_zero {decoder : JsonDecoder} {engine : Jinja2} argv env :
  fst (main argv env) = Ok 0%nat ->
  exists prog json_file output_html rest html,
    argv = prog :: json_file :: output_html :: rest
    /\ os_exists env json_file = true
    /\ os_write env output_html html = None
    /\ snd (main argv env) = [Written output_html html].
Proof.
  destruct argv as [|prog [|json_file [|output_html rest]]]; try discriminate.
  unfold main.
  destruct (os_exists env json_file) eqn:Hex; [|discriminate]. simpl.
  destruct (__init__ _ _) as [generator|]; [|discriminate].
  destruct (parse_semgrep_output _ _ _) as [data|]; [|discriminate].
  destruct (truthy data); [|discriminate]. simpl.
  destruct (extract_findings data) as [fs|]; [|discriminate].
  destruct (generate_html _ _ _) as [html|]; [|discriminate].
  destruct (save_report_events env html output_html) as (status & -> & Hst).
  destruct status; [|discriminate]. intros _.
  exists prog, json_file, output_html, rest, html.
  split; [reflexivity|]. split; [exact Hex|]. split; [by apply Hst|reflexivity].
Qed.

Lemma main_exit_zero_witness :
  exists prog json_file output_html rest html,
    ["report.py"; "in.json"; "out.html"] = prog :: json_file :: output_html :: rest
    /\ os_exists (sample_os "one" None) json_file = true
    /\ os_write (sample_os "one" None) output_html html = None
    /\ snd (main (decoder := sample_decoder) (engine := echo_engine)
              ["report.py"; "in.json"; "out.html"] (sample_os "one" None))
       = [Written output_html html].
Proof.
  apply (main_exit_zero (decoder := sample_decoder) (engine := echo_engine)
           ["report.py"; "in.json"; "out.html"] (sample_os "one" None)).
  reflexivity.
Defined.

(** X18: [main] writes to no path but the one given as third argument, and
    attempts at most one write in a run, whatever the arguments and the
    surroundings. *)
Theorem main_writes_only_output {decoder : JsonDecoder} {engine : Jinja2}
    argv env :
  (length (snd (main argv env)) <= 1)%nat
  /\ Forall (fun ev => event_path ev = nth 2 argv "") (snd (main argv env)).
Proof.
  destruct argv as [|prog [|json_file [|output_html rest]]];
    try (split; [simpl; lia|constructor]).
  unfold main.
  destruct (negb (os_exists env json_file)); [split; [simpl; lia|constructor]|].
  destruct (__init__ _ _) as [generator|]; [|split; [simpl; lia|constructor]].
  destruct (parse_semgrep_output _ _ _) as [data|];
    [|split; [simpl; lia|constructor]].
  destruct (negb (truthy data)); [split; [simpl; lia|constructor]|].
  destruct (extract_findings data) as [fs|]; [|split; [simpl; lia|constructor]].
  cbv zeta.
  destruct (generate_html _ _ _) as [html|]; [|split; [simpl; lia|constructor]].
  destruct (save_report_events env html output_html) as ([] & -> & _);
    (split; [simpl; lia|repeat constructor]).
Qed.

(** X19: [main] catches nothing.  Once the input exists, an exception
    raised while the template is loaded, while the input is read, or while
    findings are extracted ends the run with that exception, and no output
    is written. *)
Theorem main_uncaught {decoder : JsonDecoder} {engine : Jinja2}
    prog json_file output_html rest env e :
  os_exists env json_file = true ->
  __init__ (os_read env) default_template_path = Raise e
  \/ (exists generator,
        __init__ (os_read env) default_template_path = Ok generator
        /\ stage_failure env json_file e) ->
  main (prog :: json_file :: output_html :: rest) env = (Raise e, []).
Proof.
  intros Hex Hfail. unfold main. rewrite Hex. simpl.
  destruct Hfail as [->|(generator & -> & [Hparse|data Hparse Htruthy Hfs])];
    [reflexivity|by rewrite Hparse|].
  rewrite Hparse, Htruthy. simpl. rewrite Hfs. reflexivity.
Qed.

Lemma main_uncaught_witness :
  main (decoder := sample_decoder) (engine := echo_engine)
    ["report.py"; "in.json"; "out.html"] (sample_os "bad" None)
  = (Raise IndexError, []).
Proof.
  apply (main_uncaught (decoder := sample_decoder) (engine := echo_engine)
           "report.py" "in.json" "out.html" [] (sample_os "bad" None) IndexError);
    [reflexivity|].
  right. exists (echo_generator fallback_html). split; [reflexivity|].
  apply (extract_fails _ _ _ (single_run [empty_locations_result])); reflexivity.
Defined.

(** ** Entries of the wrong type *)

(** X20: the defaults stand in for missing keys only.  A [message] entry
    that is present but not a mapping (a null, say), or a [level] entry that
    is present but not a string, makes building the finding raise
    [AttributeError]. *)
Theorem ill_typed_entry_raises kvs v :
  (dict_lookup kvs "message" = Some v /\ forall o, v <> JObj o)
  \/ (object_or_missing (dict_lookup kvs "message") = true
      /\ dict_lookup kvs "level" = Some v /\ forall s, v <> JStr s) ->
  build_finding (JObj kvs) = Raise AttributeError.
Proof.
  unfold build_finding. simpl.
  intros [[-> Hv]|(Hm & -> & Hv)]; simpl.
  - destruct v as [| | | | | |o]; try reflexivity. by destruct (Hv o).
  - destruct (dict_lookup kvs "message") as [[]|]; try discriminate Hm; simpl;
      (destruct v as [| | | |s| |]; try reflexivity; by destruct (Hv s)).
Qed.

Lemma ill_typed_entry_raises_witness :
  build_finding (JObj [("message", JNull)]) = Raise AttributeError
  /\ build_finding (JObj [("ruleId", JStr "r"); ("level", JNull)])
     = Raise AttributeError.
Proof.
  split.
  - apply (ill_typed_entry_raises [("message", JNull)] JNull).
    left. split; [reflexivity|discriminate].
  - apply (ill_typed_entry_raises [("ruleId", JStr "r"); ("level", JNull)] JNull).
    right. split; [reflexivity|]. split; [reflexivity|discriminate].
Defined.

(** X21: a run that is not a mapping contributes no finding: the loop
    either passes over it, leaving the findings collected so far as they
    are, or raises [TypeError]. *)
Theorem run_not_a_mapping acc run :
  (forall kvs, run <> JObj kvs) ->
  extract_run acc run = Ok acc \/ extract_run acc run = Raise TypeError.
Proof.
  intros Hno. unfold extract_run.
  destruct run as [| | | |s|xs|kvs]; simpl; auto.
  - destruct (is_substring "results" s); simpl; auto.
  - destruct (existsb (is_str "results") xs); simpl; auto.
  - by destruct (Hno kvs).
Qed.

Lemma run_not_a_mapping_witness :
  extract_run [default_finding] (JStr "run") = Ok [default_finding]
  \/ extract_run [default_finding] (JStr "run") = Raise TypeError.
Proof. apply run_not_a_mapping. discriminate. Defined.
